(** * Authentication gate and ratings handlers of pizza-taste-meter

    Shallow embedding of [lib/auth.ts] ([extractUser], [requireAuth],
    [requireAdmin]), of the two /api/ratings handlers
    ([netlify/functions/ratings.ts] and its authenticated successor), of
    the Netlify Blobs ratings handler, of [netlify/functions/me.ts] and of
    the admin surveys handler.

    Modelling conventions.
    - JavaScript strings are modelled as byte strings ([string] / [list ascii]);
      [Buffer.toString()] (UTF-8 decoding) is the identity on bytes: it never
      turns a non-ASCII byte into an ASCII character, so whether [JSON.parse]
      accepts its input is the same on bytes and on the decoded text.
    - A parsed JSON number keeps the exact value of its literal; every
      JavaScript reading of it ([truthy], [Number]) sees [to_double] of
      it, the nearest binary64 number, and [exp * 1000] is rounded the
      same way. Number values are binary64 values written as rationals.
    - Exceptions thrown by JavaScript ([SyntaxError], [TypeError]) and by the
      database client are values of [exn]; code inside a [try] runs in a
      state and error monad over the database [world]. *)

From Stdlib Require Import String Ascii List ZArith QArith Bool Lia Sorted.
Set Warnings "-register-all".
Import ListNotations.
Open Scope Z_scope.

(* ================================================================= *)
(** ** JavaScript strings *)

Module JsString.

Definition chars (s : string) : list ascii := list_ascii_of_string s.

(** [s.startsWith(p)] *)
Definition startsWith (s p : string) : bool := String.prefix p s.

(** [s.slice(n)] for [n >= 0] *)
Fixpoint slice (n : nat) (s : string) : string :=
  match n, s with
  | O, _ => s
  | S _, EmptyString => EmptyString
  | S n', String _ s' => slice n' s'
  end.

(** [s.split(sep)] for a one-character separator: every occurrence splits,
    empty segments are kept, and [""] splits into [[""]]. *)
Fixpoint split_chars (sep : ascii) (l : list ascii) : list (list ascii) :=
  match l with
  | [] => [[]]
  | c :: r =>
      let segs := split_chars sep r in
      if Ascii.eqb c sep then [] :: segs
      else match segs with
           | seg :: rest => (c :: seg) :: rest
           | [] => [[c]]
           end
  end.

Definition split (sep : ascii) (s : string) : list string :=
  map string_of_list_ascii (split_chars sep (chars s)).

(** [s.replace(/a/g, b)] for single characters *)
Definition replace_all (a b : ascii) (l : list ascii) : list ascii :=
  map (fun c => if Ascii.eqb c a then b else c) l.

End JsString.

(* ================================================================= *)
(** ** [Buffer.from(s, "base64")]

    Node's decoder is lenient: characters outside the alphabet are skipped,
    decoding stops at the first ['='], and a trailing group of two or three
    sextets yields one or two bytes. The URL-safe characters [-] and [_] are
    accepted as well. *)

Module Base64.

Definition sextet (c : ascii) : option Z :=
  let n := Z.of_nat (nat_of_ascii c) in
  if (65 <=? n) && (n <=? 90) then Some (n - 65)
  else if (97 <=? n) && (n <=? 122) then Some (n - 71)
  else if (48 <=? n) && (n <=? 57) then Some (n + 4)
  else if (n =? 43) || (n =? 45) then Some 62
  else if (n =? 47) || (n =? 95) then Some 63
  else None.

Fixpoint sextets (l : list ascii) : list Z :=
  match l with
  | [] => []
  | c :: r =>
      if Ascii.eqb c "=" then []
      else match sextet c with
           | Some v => v :: sextets r
           | None => sextets r
           end
  end.

Definition byte (z : Z) : ascii := ascii_of_nat (Z.to_nat z).

Fixpoint bytes (l : list Z) : list ascii :=
  match l with
  | a :: b :: c :: d :: r =>
      byte (a * 4 + b / 16) :: byte ((b mod 16) * 16 + c / 4)
        :: byte ((c mod 4) * 64 + d) :: bytes r
  | [a; b; c] => [byte (a * 4 + b / 16); byte ((b mod 16) * 16 + c / 4)]
  | [a; b] => [byte (a * 4 + b / 16)]
  | _ => []
  end.

Definition decode (l : list ascii) : list ascii := bytes (sextets l).

End Base64.

(* ================================================================= *)
(** ** [JSON.parse]

    A recursive-descent parser for RFC 8259 JSON over bytes. A [\uXXXX]
    escape is stored as the UTF-8 encoding of the code unit. The parser
    returns [None] exactly where [JSON.parse] throws [SyntaxError]. *)

Module Json.

Inductive json : Type :=
  | JNull
  | JBool (b : bool)
  | JNum (q : Q)
  | JStr (s : string)
  | JArr (l : list json)
  | JObj (kv : list (string * json)).

Local Open Scope char_scope.

Definition code (c : ascii) : nat := nat_of_ascii c.
Definition dquote : ascii := ascii_of_nat 34.

Definition is_ws (c : ascii) : bool :=
  match code c with 9 | 10 | 13 | 32 => true | _ => false end%nat.

Fixpoint skip_ws (l : list ascii) : list ascii :=
  match l with
  | c :: r => if is_ws c then skip_ws r else l
  | [] => []
  end.

Definition is_digit (c : ascii) : bool := (48 <=? code c)%nat && (code c <=? 57)%nat.

Fixpoint span_digits (l : list ascii) : list ascii * list ascii :=
  match l with
  | c :: r =>
      if is_digit c then let (ds, rest) := span_digits r in (c :: ds, rest)
      else ([], l)
  | [] => ([], [])
  end.

Definition digits_value (ds : list ascii) : Z :=
  fold_left (fun acc c => acc * 10 + (Z.of_nat (code c) - 48))%Z ds 0%Z.

Definition hex_value (c : ascii) : option Z :=
  (let n := Z.of_nat (code c) in
  if (48 <=? n) && (n <=? 57) then Some (n - 48)
  else if (97 <=? n) && (n <=? 102) then Some (n - 87)
  else if (65 <=? n) && (n <=? 70) then Some (n - 55)
  else None)%Z.

(** UTF-8 bytes of one UTF-16 code unit. *)
Definition utf8_unit (u : Z) : list ascii :=
  (if u <? 128 then [Base64.byte u]
  else if u <? 2048 then [Base64.byte (192 + u / 64); Base64.byte (128 + u mod 64)]
  else [Base64.byte (224 + u / 4096); Base64.byte (128 + (u / 64) mod 64);
        Base64.byte (128 + u mod 64)])%Z.

Definition simple_escape (e : ascii) : option ascii :=
  match code e with
  | 34 => Some dquote | 92 => Some "\" | 47 => Some "/"
  | 98 => Some (ascii_of_nat 8) | 102 => Some (ascii_of_nat 12)
  | 110 => Some (ascii_of_nat 10) | 114 => Some (ascii_of_nat 13)
  | 116 => Some (ascii_of_nat 9)
  | _ => None
  end%nat.

(** The body of a string literal, after the opening quote. *)
Fixpoint str_body (l : list ascii) : option (list ascii * list ascii) :=
  match l with
  | [] => None
  | c :: r =>
      if Ascii.eqb c dquote then Some ([], r)
      else if (code c <? 32)%nat then None
      else if Ascii.eqb c "\" then
        match r with
        | "u" :: h1 :: h2 :: h3 :: h4 :: r' =>
            match hex_value h1, hex_value h2, hex_value h3, hex_value h4 with
            | Some a, Some b, Some d, Some e =>
                match str_body r' with
                | Some (s, rest) => Some (utf8_unit (((a * 16 + b) * 16 + d) * 16 + e)%Z ++ s, rest)
                | None => None
                end
            | _, _, _, _ => None
            end
        | e :: r' =>
            match simple_escape e, str_body r' with
            | Some d, Some (s, rest) => Some (d :: s, rest)
            | _, _ => None
            end
        | [] => None
        end
      else match str_body r with
           | Some (s, rest) => Some (c :: s, rest)
           | None => None
           end
  end.

Definition scaled (m e : Z) : Q :=
  (if 0 <=? e then inject_Z (m * 10 ^ e) else Qmake m (Z.to_pos (10 ^ (- e))))%Z.

(** [-? (0 | [1-9][0-9]* ) (. [0-9]+)? ([eE] [+-]? [0-9]+)?] *)
Definition number (l : list ascii) : option (json * list ascii) :=
  let (neg, l1) := match l with "-" :: r => (true, r) | _ => (false, l) end in
  let int_part :=
    match l1 with
    | "0" :: r => Some (["0"], r)
    | c :: _ => if is_digit c then Some (span_digits l1) else None
    | [] => None
    end in
  match int_part with
  | None => None
  | Some (ids, l2) =>
      let frac :=
        match l2 with
        | "." :: r => let (fd, r') := span_digits r in
                      match fd with [] => None | _ => Some (fd, r') end
        | _ => Some ([], l2)
        end in
      match frac with
      | None => None
      | Some (fds, l3) =>
          let expo :=
            match l3 with
            | c :: r =>
                if Ascii.eqb c "e" || Ascii.eqb c "E" then
                  let (eneg, r1) := match r with
                                    | "-" :: r' => (true, r') | "+" :: r' => (false, r')
                                    | _ => (false, r) end in
                  let (eds, r2) := span_digits r1 in
                  match eds with
                  | [] => None
                  | _ => Some ((if eneg then - digits_value eds else digits_value eds)%Z, r2)
                  end
                else Some (0%Z, l3)
            | [] => Some (0%Z, l3)
            end in
          match expo with
          | None => None
          | Some (e, l4) =>
              let q := scaled (digits_value (ids ++ fds)) (e - Z.of_nat (length fds))%Z in
              Some (JNum (if neg then Qopp q else q), l4)
          end
      end
  end.

Fixpoint value (fuel : nat) (l : list ascii) {struct fuel} : option (json * list ascii) :=
  match fuel with
  | O => None
  | S f =>
      match skip_ws l with
      | "n" :: "u" :: "l" :: "l" :: r => Some (JNull, r)
      | "t" :: "r" :: "u" :: "e" :: r => Some (JBool true, r)
      | "f" :: "a" :: "l" :: "s" :: "e" :: r => Some (JBool false, r)
      | "[" :: r =>
          match skip_ws r with
          | "]" :: r' => Some (JArr [], r')
          | _ => elems f r []
          end
      | "{" :: r =>
          match skip_ws r with
          | "}" :: r' => Some (JObj [], r')
          | _ => members f r []
          end
      | c :: r =>
          if Ascii.eqb c dquote then
            match str_body r with
            | Some (s, r') => Some (JStr (string_of_list_ascii s), r')
            | None => None
            end
          else number (c :: r)
      | [] => None
      end
  end
with elems (fuel : nat) (l : list ascii) (acc : list json) {struct fuel}
  : option (json * list ascii) :=
  match fuel with
  | O => None
  | S f =>
      match value f l with
      | Some (v, r) =>
          match skip_ws r with
          | "," :: r' => elems f r' (v :: acc)
          | "]" :: r' => Some (JArr (rev (v :: acc)), r')
          | _ => None
          end
      | None => None
      end
  end
with members (fuel : nat) (l : list ascii) (acc : list (string * json)) {struct fuel}
  : option (json * list ascii) :=
  match fuel with
  | O => None
  | S f =>
      match skip_ws l with
      | c :: r =>
          if Ascii.eqb c dquote then
            match str_body r with
            | Some (k, r1) =>
                match skip_ws r1 with
                | ":" :: r2 =>
                    match value f r2 with
                    | Some (v, r3) =>
                        let acc' := (string_of_list_ascii k, v) :: acc in
                        match skip_ws r3 with
                        | "," :: r4 => members f r4 acc'
                        | "}" :: r4 => Some (JObj (rev acc'), r4)
                        | _ => None
                        end
                    | None => None
                    end
                | _ => None
                end
            | None => None
            end
          else None
      | [] => None
      end
  end.

(** [JSON.parse(text)]: one value, surrounded by whitespace only. *)
Definition parse (l : list ascii) : option json :=
  match value (2 * length l + 2) l with
  | Some (v, rest) => match skip_ws rest with [] => Some v | _ => None end
  | None => None
  end.

End Json.

(* ================================================================= *)
(** ** JavaScript values read out of a parsed JSON document *)

Module JsValue.
Import Json.

Inductive exn : Type :=
  | SyntaxError
  | TypeError
  | DbError.

(** A JavaScript value reached from [JSON.parse]: [None] is [undefined]. *)
Definition value := option json.

(** IEEE numbers as far as the code observes them. *)
Inductive jsnum : Type :=
  | NaN
  | PosInf
  | NegInf
  | Fin (q : Q).

(** *** Rounding to binary64

    [JSON.parse] and [Number] turn the exact value of a numeric literal
    into the nearest IEEE binary64 number, ties to even; a value that
    rounds to [2^1024] or more becomes [Infinity]. The same rounding ends
    every arithmetic operation. *)

Definition pow2 (e : Z) : Q :=
  if (0 <=? e)%Z then inject_Z (2 ^ e) else 1 # Z.to_pos (2 ^ (- e)).

(** [floor (log2 (p / d))] *)
Definition log2_floor (p d : positive) : Z :=
  let e := (Z.log2 (Zpos p) - Z.log2 (Zpos d))%Z in
  if Qle_bool (pow2 e) (Zpos p # d) then e else (e - 1)%Z.

(** [n / d] rounded to the nearest integer, ties to even ([0 < d]). *)
Definition round_div (n d : Z) : Z :=
  let f := (n / d)%Z in
  match Z.compare (2 * (n mod d)) d with
  | Lt => f
  | Gt => (f + 1)%Z
  | Eq => if Z.even f then f else (f + 1)%Z
  end.

(** The binary64 number nearest to [p / d]: 53 significant bits, the
    quantum of the subnormals being [2^-1074]. *)
Definition round_pos (p d : positive) : jsnum :=
  let qe := (Z.max (log2_floor p d) (-1022) - 52)%Z in
  if (0 <=? qe)%Z then
    let m := round_div (Zpos p) (Zpos d * 2 ^ qe) in
    if (2 ^ 1024 <=? m * 2 ^ qe)%Z then PosInf else Fin (inject_Z (m * 2 ^ qe))
  else Fin (Qred (round_div (Zpos p * 2 ^ (- qe)) (Zpos d) # Z.to_pos (2 ^ (- qe)))).

Definition to_double (q : Q) : jsnum :=
  match Qnum q with
  | Z0 => Fin 0
  | Zpos p => round_pos p (Qden q)
  | Zneg p => match round_pos p (Qden q) with Fin r => Fin (Qopp r) | _ => NegInf end
  end.

(** Own property lookup of a parsed object: a later duplicate key wins. *)
Definition own (kv : list (string * json)) (k : string) : value :=
  match find (fun p => String.eqb (fst p) k) (rev kv) with
  | Some (_, v) => Some v
  | None => None
  end.

Definition has_own (kv : list (string * json)) (k : string) : bool :=
  existsb (fun p => String.eqb (fst p) k) kv.

(** [v.k] for a key that is neither an array index, ["length"], nor a
    property of [Object.prototype]: [null] and [undefined] throw. *)
Definition get (v : value) (k : string) : exn + value :=
  match v with
  | None | Some JNull => inl TypeError
  | Some (JObj kv) => inr (own kv k)
  | Some _ => inr None
  end.

Definition truthy (v : value) : bool :=
  match v with
  | None | Some JNull => false
  | Some (JBool b) => b
  | Some (JNum q) => match to_double q with Fin r => negb (Qeq_bool r 0) | _ => true end
  | Some (JStr s) => negb (String.eqb s EmptyString)
  | Some (JArr _) | Some (JObj _) => true
  end.

(** *** [StringToNumber] *)

Local Open Scope char_scope.

Definition is_js_ws (c : ascii) : bool :=
  match code c with 9 | 10 | 11 | 12 | 13 | 32 => true | _ => false end%nat.

Fixpoint drop_ws (l : list ascii) : list ascii :=
  match l with
  | c :: r => if is_js_ws c then drop_ws r else l
  | [] => []
  end.

Definition trim (l : list ascii) : list ascii := rev (drop_ws (rev (drop_ws l))).

Definition radix_digit (b : Z) (c : ascii) : option Z :=
  match hex_value c with
  | Some d => if (d <? b)%Z then Some d else None
  | None => None
  end.

Fixpoint radix_value (b acc : Z) (l : list ascii) : option Z :=
  match l with
  | [] => Some acc
  | c :: r =>
      match radix_digit b c with
      | Some d => radix_value b (acc * b + d)%Z r
      | None => None
      end
  end.

Definition non_decimal (b : Z) (l : list ascii) : jsnum :=
  match l with
  | [] => NaN
  | _ => match radix_value b 0%Z l with Some z => to_double (inject_Z z) | None => NaN end
  end.

(** [StrUnsignedDecimalLiteral], the whole remaining input. *)
Definition unsigned_decimal (l : list ascii) : option jsnum :=
  match l with
  | "I" :: "n" :: "f" :: "i" :: "n" :: "i" :: "t" :: "y" :: [] => Some PosInf
  | _ =>
      let (ids, l1) := span_digits l in
      let (fds, l2) := match l1 with
                       | "." :: r => span_digits r
                       | _ => ([], l1)
                       end in
      match ids ++ fds with
      | [] => None
      | _ =>
          let expo :=
            match l2 with
            | [] => Some 0%Z
            | c :: r =>
                if Ascii.eqb c "e" || Ascii.eqb c "E" then
                  let (eneg, r1) := match r with
                                    | "-" :: r' => (true, r') | "+" :: r' => (false, r')
                                    | _ => (false, r) end in
                  match span_digits r1 with
                  | ([], _) => None
                  | (eds, []) => Some (if eneg then - digits_value eds else digits_value eds)%Z
                  | (_, _ :: _) => None
                  end
                else None
            end in
          match expo with
          | Some e => Some (to_double (scaled (digits_value (ids ++ fds)) (e - Z.of_nat (length fds))%Z))
          | None => None
          end
      end
  end.

Definition neg (n : jsnum) : jsnum :=
  match n with
  | NaN => NaN | PosInf => NegInf | NegInf => PosInf | Fin q => Fin (Qopp q)
  end.

Definition string_to_number (s : string) : jsnum :=
  match trim (list_ascii_of_string s) with
  | [] => Fin 0
  | "0" :: x :: r =>
      if Ascii.eqb x "x" || Ascii.eqb x "X" then non_decimal 16 r
      else if Ascii.eqb x "o" || Ascii.eqb x "O" then non_decimal 8 r
      else if Ascii.eqb x "b" || Ascii.eqb x "B" then non_decimal 2 r
      else match unsigned_decimal ("0" :: x :: r) with Some n => n | None => NaN end
  | "-" :: r => match unsigned_decimal r with Some n => neg n | None => NaN end
  | "+" :: r => match unsigned_decimal r with Some n => n | None => NaN end
  | t => match unsigned_decimal t with Some n => n | None => NaN end
  end.

Local Close Scope char_scope.

(** *** [ToNumber] *)

(** Whether [ToString] throws on a parsed value: an object with an own,
    non-callable [toString] leaves [OrdinaryToPrimitive] without a method. *)
Fixpoint tostring_throws (v : json) : bool :=
  match v with
  | JObj kv => has_own kv "toString"
  | JArr l => (fix any (l : list json) : bool :=
                 match l with [] => false | x :: r => tostring_throws x || any r end) l
  | _ => false
  end.

(** [ToNumber(ToString(v))]: an array is joined with [","]. *)
Fixpoint number_of_text (v : json) : exn + jsnum :=
  match v with
  | JNull => inr (Fin 0)
  | JBool _ => inr NaN
  | JNum q => inr (to_double q)
  | JStr s => inr (string_to_number s)
  | JArr [] => inr (Fin 0)
  | JArr [x] => number_of_text x
  | JArr l => if tostring_throws (JArr l) then inl TypeError else inr NaN
  | JObj kv => if has_own kv "toString" then inl TypeError else inr NaN
  end.

(** [Number(v)] *)
Definition to_number (v : value) : exn + jsnum :=
  match v with
  | None => inr NaN
  | Some (JBool b) => inr (Fin (if b then 1 else 0))
  | Some j => number_of_text j
  end.

Definition isNaN (n : jsnum) : bool := match n with NaN => true | _ => false end.

(** [a < b] *)
Definition lt (a b : jsnum) : bool :=
  match a, b with
  | NaN, _ | _, NaN => false
  | Fin x, Fin y => negb (Qle_bool y x)
  | NegInf, NegInf => false
  | NegInf, _ => true
  | _, PosInf => match a with PosInf => false | _ => true end
  | _, _ => false
  end.

(** [n * 1000], rounded *)
Definition times1000 (n : jsnum) : jsnum :=
  match n with Fin q => to_double (q * inject_Z 1000) | _ => n end.

End JsValue.

(* ================================================================= *)
(** ** The database collaborator and the request monad *)

Module Db.
Import Json JsValue.

(** Text sent for a query parameter: [null] and [undefined] are SQL
    [NULL], a string is sent as is. Other values are rendered by [render]
    (an approximation of the client's serialisation; no claim below depends
    on it). *)
Fixpoint dec_digits (fuel : nat) (n : Z) (acc : list ascii) : list ascii :=
  match fuel with
  | O => acc
  | S f =>
      let acc' := Base64.byte (48 + n mod 10)%Z :: acc in
      if (n <? 10)%Z then acc' else dec_digits f (n / 10)%Z acc'
  end.

Definition z_text (z : Z) : string :=
  let body := string_of_list_ascii (dec_digits (Z.to_nat (Z.log2 (Z.abs z) + 1)) (Z.abs z) []) in
  if (z <? 0)%Z then ("-" ++ body)%string else body.

Definition quoted (s : string) : string :=
  String dquote (s ++ String dquote EmptyString)%string.

Fixpoint render (v : json) : string :=
  match v with
  | JNull => "null"
  | JBool true => "true"
  | JBool false => "false"
  | JNum q => let r := Qred q in
              if Pos.eqb (Qden r) 1 then z_text (Qnum r)
              else (z_text (Qnum r) ++ "/" ++ z_text (Zpos (Qden r)))%string
  | JStr s => quoted s
  | JArr l =>
      ("[" ++ (fix go (l : list json) : string :=
                 match l with
                 | [] => ""
                 | [x] => render x
                 | x :: r => render x ++ "," ++ go r
                 end) l ++ "]")%string
  | JObj kv =>
      ("{" ++ (fix go (kv : list (string * json)) : string :=
                 match kv with
                 | [] => ""
                 | [(k, x)] => quoted k ++ ":" ++ render x
                 | (k, x) :: r => quoted k ++ ":" ++ render x ++ "," ++ go r
                 end) kv ++ "}")%string
  end.

Definition param (v : value) : option string :=
  match v with
  | None | Some JNull => None
  | Some (JStr s) => Some s
  | Some j => Some (render j)
  end.

(** SQL [=] on nullable text: [NULL] never compares equal. *)
Definition sql_eq (a b : option string) : bool :=
  match a, b with
  | Some x, Some y => String.eqb x y
  | _, _ => false
  end.

(** A row of [users] ([DbUser]). Ids and [created_at] are drawn from the
    store's counter [next_id]. *)
Record DbUser := mkDbUser {
  id : nat;
  netlify_id : option string;
  email : option string;
  role : string;
  created_at : nat
}.

(** A row of [ratings]. *)
Record Rating := mkRating {
  r_id : nat;
  survey_id : option string;
  score : jsnum;
  timestamp : Z;
  user_id : option nat
}.

(** Every query the code sends, in order. *)
Inductive op : Type :=
  | SelectUser (netlify_id : option string)
  | InsertUser (netlify_id email : option string) (role : string)
  | SelectRatings (survey_id : option string)
  | SelectMyRating (survey_id : option string) (user_id : nat)
  | InsertRating (survey_id : option string) (score : jsnum) (timestamp : Z)
  | UpsertRating (survey_id : option string) (score : jsnum) (timestamp : Z) (user_id : nat).

Record world := mkWorld {
  users : list DbUser;
  ratings : list Rating;
  next_id : nat;
  log : list op
}.

(** Which queries of the current request fail (network, timeout, or a
    rejected cast such as an invalid [::uuid]). *)
Record faults := mkFaults {
  lookup_fault : bool;
  insert_fault : bool;
  ratings_fault : bool
}.

Definition no_faults : faults := mkFaults false false false.

(** Code inside a [try]: state over [world], errors in [exn]. *)
Definition M (A : Type) : Type := world -> (exn + A) * world.

Definition ret {A} (a : A) : M A := fun w => (inr a, w).

Definition bind {A B} (m : M A) (k : A -> M B) : M B :=
  fun w => match m w with
           | (inl e, w') => (inl e, w')
           | (inr a, w') => k a w'
           end.

Definition lift {A} (x : exn + A) : M A := fun w => (x, w).

Notation "x <- m ;; k" := (bind m (fun x => k))
  (at level 61, m at next level, right associativity).

Definition sent (o : op) (w : world) : world :=
  mkWorld (users w) (ratings w) (next_id w) (log w ++ [o]).

(** [SELECT ... FROM users WHERE netlify_id = $1], first row. *)
Definition select_user (fl : faults) (k : option string) : M (option DbUser) :=
  fun w =>
    let w1 := sent (SelectUser k) w in
    if lookup_fault fl then (inl DbError, w1)
    else (inr (find (fun u => sql_eq (netlify_id u) k) (users w1)), w1).

(** [INSERT INTO users (netlify_id, email, role) ... RETURNING ...] *)
Definition insert_user (fl : faults) (k e : option string) (r : string) : M DbUser :=
  fun w =>
    let w1 := sent (InsertUser k e r) w in
    if insert_fault fl then (inl DbError, w1)
    else
      let u := mkDbUser (next_id w1) k e r (next_id w1) in
      (inr u, mkWorld (users w1 ++ [u]) (ratings w1) (S (next_id w1)) (log w1)).

End Db.

(* ================================================================= *)
(** ** Requests and responses *)

Module Http.
Import JsValue Db.

Record Request := mkRequest {
  method : string;
  pathname : string;
  (** [url.searchParams.get("surveyId")] *)
  query_surveyId : option string;
  (** [request.headers.get("Authorization")] *)
  authorization : option string;
  (** the raw body read by [request.json()] *)
  body_text : string
}.

(** Response bodies, before [JSON.stringify]; the fixed CORS headers are
    not modelled. *)
Inductive Body : Type :=
  | NoBody
  | ErrBody (error : string)
  | RatingBody (r : Rating)
  | RatingsBody (l : list Rating)
  | MyRatingBody (rating : option (nat * jsnum * Z)).

Record Response := mkResponse {
  status : Z;
  body : Body
}.

End Http.

(* ================================================================= *)
(** ** [lib/auth.ts] *)

Module Auth.
Import Json JsValue Db Http.
Local Open Scope string_scope.

Record NetlifyUser := mkNetlifyUser {
  n_id : value;
  n_email : value;
  user_metadata : value;
  app_metadata : value
}.

Record AuthResult := mkAuthResult {
  user : option NetlifyUser;
  dbUser : option DbUser;
  error : option string
}.

Definition unauthorizedResponse (message : string) : Response := mkResponse 401 (ErrBody message).
Definition forbiddenResponse (message : string) : Response := mkResponse 403 (ErrBody message).

Definition parse_or_throw (l : list ascii) : exn + json :=
  match Json.parse l with Some j => inr j | None => inl SyntaxError end.

(** The middle segment, as [JSON.parse] receives it. *)
Definition payload_text (seg : string) : list ascii :=
  Base64.decode (JsString.replace_all "_"%char "/"%char
    (JsString.replace_all "-"%char "+"%char (JsString.chars seg))).

(** [payload.exp && payload.exp * 1000 < Date.now()] *)
Definition is_expired (now : Z) (payload : json) : M bool :=
  exp <- lift (get (Some payload) "exp") ;;
  if truthy exp then
    n <- lift (to_number exp) ;;
    ret (lt (times1000 n) (Fin (inject_Z now)))
  else ret false.

(** Find or create the user in the database (the two queries after
    [neon()]). *)
Definition find_or_create (fl : faults) (netlifyUser : NetlifyUser) : M DbUser :=
  found <- select_user fl (param (n_id netlifyUser)) ;;
  match found with
  | Some u => ret u
  | None => insert_user fl (param (n_id netlifyUser)) (param (n_email netlifyUser)) "user"
  end.


(** The body of the [try] block of [extractUser]. *)
Definition extract_try (fl : faults) (now : Z) (token : string) : M AuthResult :=
  let parts := JsString.split "."%char token in
  if negb (Nat.eqb (length parts) 3) then
    ret (mkAuthResult None None (Some "Invalid token format"))
  else
    payload <- lift (parse_or_throw (payload_text (nth 1 parts EmptyString))) ;;
    expired <- is_expired now payload ;;
    if expired then ret (mkAuthResult None None (Some "Token expired"))
    else
      sub <- lift (get (Some payload) "sub") ;;
      email <- lift (get (Some payload) "email") ;;
      um <- lift (get (Some payload) "user_metadata") ;;
      am <- lift (get (Some payload) "app_metadata") ;;
      let netlifyUser := mkNetlifyUser sub email um am in
      dbUser <- find_or_create fl netlifyUser ;;
      ret (mkAuthResult (Some netlifyUser) (Some dbUser) None).

Definition no_credentials : AuthResult := mkAuthResult None None None.
Definition verify_failed : AuthResult := mkAuthResult None None (Some "Failed to verify token").

(** [extractUser(request)]; its [catch] turns every exception into
    ["Failed to verify token"]. *)
Definition extractUser (fl : faults) (now : Z) (hdr : option string) (w : world)
  : AuthResult * world :=
  match hdr with
  | None => (no_credentials, w)
  | Some h =>
      if String.eqb h EmptyString || negb (JsString.startsWith h "Bearer ") then
        (no_credentials, w)
      else
        match extract_try fl now (JsString.slice 7 h) w with
        | (inl _, w') => (verify_failed, w')
        | (inr r, w') => (r, w')
        end
  end.

Record Guarded := mkGuarded {
  auth : AuthResult;
  errorResponse : option Response
}.

(** [auth.error || "Authentication required"] *)
Definition reason (a : AuthResult) : string :=
  match error a with
  | Some e => if String.eqb e EmptyString then "Authentication required" else e
  | None => "Authentication required"
  end.

Definition requireAuth (fl : faults) (now : Z) (hdr : option string) (w : world)
  : Guarded * world :=
  let (a, w') := extractUser fl now hdr w in
  match user a, dbUser a with
  | Some _, Some _ => (mkGuarded a None, w')
  | _, _ => (mkGuarded a (Some (unauthorizedResponse (reason a))), w')
  end.

Definition requireAdmin (fl : faults) (now : Z) (hdr : option string) (w : world)
  : Guarded * world :=
  let (g, w') := requireAuth fl now hdr w in
  match errorResponse g with
  | Some r => (mkGuarded (auth g) (Some r), w')
  | None =>
      let is_admin := match dbUser (auth g) with
                      | Some u => String.eqb (role u) "admin"
                      | None => false
                      end in
      if is_admin then (mkGuarded (auth g) None, w')
      else (mkGuarded (auth g) (Some (forbiddenResponse "Admin access required")), w')
  end.




End Auth.

(* ================================================================= *)
(** ** PostgreSQL's [uuid] type *)

Module Uuid.
Import Json JsValue.

Local Open Scope char_scope.

(** [n] more bytes of two hex digits each, [i] bytes read so far; a hyphen
    may follow every odd-numbered byte but the last. *)
Fixpoint uuid_bytes (n i : nat) (l : list ascii) : option (list Z * list ascii) :=
  match n with
  | O => Some ([], l)
  | S n' =>
      match l with
      | a :: b :: r =>
          match hex_value a, hex_value b with
          | Some x, Some y =>
              let r' := match r with
                        | c :: r2 =>
                            if Ascii.eqb c "-" && Nat.odd i && negb (Nat.eqb n' 0) then r2 else r
                        | [] => r
                        end in
              match uuid_bytes n' (S i) r' with
              | Some (bs, rest) => Some ((16 * x + y)%Z :: bs, rest)
              | None => None
              end
          | _, _ => None
          end
      | _ => None
      end
  end.

(** The text-to-[uuid] cast: 32 hex digits of either case, optionally in
    braces, with optional hyphens between groups of four. *)
Definition uuid_in (x : string) : option (list Z) :=
  let l := list_ascii_of_string x in
  let (braces, l1) := match l with
                      | "{" :: r => (true, r)
                      | _ => (false, l)
                      end in
  match uuid_bytes 16 0 l1 with
  | Some (bs, rest) =>
      match braces, rest with
      | true, ["}"] => Some bs
      | false, [] => Some bs
      | _, _ => None
      end
  | None => None
  end.

Local Close Scope char_scope.

(** [col = k] for a [uuid] column and a cast key. *)
Definition same_uuid (col : option string) (k : list Z) : bool :=
  match col with
  | Some x => match uuid_in x with
              | Some k' => if list_eq_dec Z.eq_dec k' k then true else false
              | None => false
              end
  | None => false
  end.

(** [$1::uuid]: a text that does not parse makes the query fail. *)
Definition cast_uuid (x : string) : exn + list Z :=
  match uuid_in x with Some k => inr k | None => inl DbError end.

End Uuid.

(* ================================================================= *)
(** ** Queries on [ratings] *)

Module RatingsDb.
Import JsValue Db Uuid.

Fixpoint insert_desc (r : Rating) (l : list Rating) : list Rating :=
  match l with
  | [] => [r]
  | x :: t => if (timestamp x <=? timestamp r)%Z then r :: l else x :: insert_desc r t
  end.

Definition sort_desc (l : list Rating) : list Rating := fold_right insert_desc [] l.

Definition MAX_RATINGS : nat := 100.

(** [survey_id = $1::uuid] on the [uuid] column: the key is cast and the
    two are compared as [uuid] values, so every spelling of a uuid (either
    case, with or without hyphens or braces) matches. A key that does not
    parse makes the query fail, which is a fault of [faults]; when no
    fault is chosen it matches nothing. *)
Definition uuid_eq (col sid : option string) : bool :=
  match sid with
  | Some x => match uuid_in x with Some k => same_uuid col k | None => false end
  | None => false
  end.

(** [SELECT ... WHERE survey_id = $1::uuid ORDER BY timestamp DESC LIMIT 100] *)
Definition select_ratings (fl : faults) (sid : option string) : M (list Rating) :=
  fun w =>
    let w1 := sent (SelectRatings sid) w in
    if ratings_fault fl then (inl DbError, w1)
    else (inr (firstn MAX_RATINGS
                 (sort_desc (filter (fun r => uuid_eq (survey_id r) sid) (ratings w1)))), w1).

(** [survey_id = $1::uuid AND user_id = $2::uuid]: the key of the partial
    unique index [(user_id, survey_id) WHERE user_id IS NOT NULL]. *)
Definition same_key (sid : option string) (uid : nat) (r : Rating) : bool :=
  uuid_eq (survey_id r) sid && match user_id r with Some u => Nat.eqb u uid | None => false end.

(** [SELECT id, score, timestamp ... WHERE survey_id = $1::uuid AND user_id = $2::uuid] *)
Definition select_my_rating (fl : faults) (sid : option string) (uid : nat)
  : M (option (nat * jsnum * Z)) :=
  fun w =>
    let w1 := sent (SelectMyRating sid uid) w in
    if ratings_fault fl then (inl DbError, w1)
    else
      let hit := find (same_key sid uid) (ratings w1) in
      (inr (option_map (fun r => (r_id r, score r, timestamp r)) hit), w1).

(** [INSERT INTO ratings (survey_id, score, timestamp) ... RETURNING ...] *)
Definition insert_rating (fl : faults) (sid : option string) (s : jsnum) (ts : Z) : M Rating :=
  fun w =>
    let w1 := sent (InsertRating sid s ts) w in
    if ratings_fault fl then (inl DbError, w1)
    else
      let r := mkRating (next_id w1) sid s ts None in
      (inr r, mkWorld (users w1) (ratings w1 ++ [r]) (S (next_id w1)) (log w1)).

(** [INSERT ... ON CONFLICT (user_id, survey_id) WHERE user_id IS NOT NULL
    DO UPDATE SET score = $2, timestamp = $3 RETURNING ...] *)
Definition upsert_rating (fl : faults) (sid : option string) (s : jsnum) (ts : Z) (uid : nat)
  : M Rating :=
  fun w =>
    let w1 := sent (UpsertRating sid s ts uid) w in
    if ratings_fault fl then (inl DbError, w1)
    else
      match find (same_key sid uid) (ratings w1) with
      | Some old =>
          let r := mkRating (r_id old) (survey_id old) s ts (user_id old) in
          let rs := map (fun x => if same_key sid uid x then r else x) (ratings w1) in
          (inr r, mkWorld (users w1) rs (next_id w1) (log w1))
      | None =>
          let r := mkRating (next_id w1) sid s ts (Some uid) in
          (inr r, mkWorld (users w1) (ratings w1 ++ [r]) (S (next_id w1)) (log w1))
      end.

End RatingsDb.

(* ================================================================= *)
(** ** The two [/api/ratings] handlers *)

Module Handlers.
Import Json JsValue Db Http Auth RatingsDb.
Local Open Scope string_scope.

Definition respond (st : Z) (msg : string) : M Response := ret (mkResponse st (ErrBody msg)).

(** [catch (error) { ... status: 500 }] *)
Definition run_handler (m : M Response) (w : world) : Response * world :=
  match m w with
  | (inl _, w') => (mkResponse 500 (ErrBody "Internal server error"), w')
  | (inr r, w') => (r, w')
  end.

(** A computation that cannot throw, run inside a [try]. *)
Definition total {A} (f : world -> A * world) : M A :=
  fun w => let (a, w') := f w in (inr a, w').

Definition endsWith (s suf : string) : bool :=
  let n := String.length s in
  let m := String.length suf in
  Nat.leb m n && String.eqb (substring (n - m) m s) suf.

(** [if (isNaN(score) || score < 1 || score > 10)] *)
Definition bad_score (score : jsnum) : bool :=
  isNaN score || lt score (Fin 1) || lt (Fin 10) score.

(** [request.json()] and the fields read from it. *)
Definition read_body (req : Request) : M (jsnum * value) :=
  body <- lift (parse_or_throw (list_ascii_of_string (body_text req))) ;;
  s <- lift (get (Some body) "score") ;;
  score <- lift (to_number s) ;;
  surveyId <- lift (get (Some body) "surveyId") ;;
  ret (score, surveyId).

Definition get_all (fl : faults) (req : Request) : M Response :=
  match query_surveyId req with
  | None | Some "" => respond 400 "surveyId query parameter is required"
  | Some sid =>
      rs <- select_ratings fl (Some sid) ;;
      ret (mkResponse 200 (RatingsBody rs))
  end.

(** [netlify/functions/ratings.ts] *)
Definition ratings_public (fl : faults) (now : Z) (req : Request) (w : world)
  : Response * world :=
  if String.eqb (method req) "OPTIONS" then (mkResponse 204 NoBody, w)
  else run_handler (
    if String.eqb (method req) "GET" then get_all fl req
    else if String.eqb (method req) "POST" then
      sb <- read_body req ;;
      let (score, surveyId) := sb in
      if negb (truthy surveyId) then respond 400 "surveyId is required"
      else if bad_score score then respond 400 "Score must be between 1 and 10"
      else
        newRating <- insert_rating fl (param surveyId) score now ;;
        ret (mkResponse 201 (RatingBody newRating))
    else respond 405 "Method not allowed") w.

(** The authenticated ratings handler ([GET /api/ratings/my], public
    [GET /api/ratings], authenticated [POST /api/ratings]). *)
Definition ratings_auth (fl : faults) (now : Z) (req : Request) (w : world)
  : Response * world :=
  if String.eqb (method req) "OPTIONS" then (mkResponse 204 NoBody, w)
  else run_handler (
    if String.eqb (method req) "GET" && endsWith (pathname req) "/my" then
      match query_surveyId req with
      | None | Some "" => respond 400 "surveyId query parameter is required"
      | Some sid =>
          a <- total (extractUser fl now (authorization req)) ;;
          match user a, dbUser a with
          | Some _, Some u =>
              my <- select_my_rating fl (Some sid) (id u) ;;
              ret (mkResponse 200 (MyRatingBody my))
          | _, _ => ret (mkResponse 200 (MyRatingBody None))
          end
      end
    else if String.eqb (method req) "GET" then get_all fl req
    else if String.eqb (method req) "POST" then
      g <- total (requireAuth fl now (authorization req)) ;;
      match errorResponse g with
      | Some r => ret r
      | None =>
          sb <- read_body req ;;
          let (score, surveyId) := sb in
          if negb (truthy surveyId) then respond 400 "surveyId is required"
          else if bad_score score then respond 400 "Score must be between 1 and 10"
          else
            let userId := match dbUser (auth g) with Some u => id u | None => O end in
            rating <- upsert_rating fl (param surveyId) score now userId ;;
            ret (mkResponse 201 (RatingBody rating))
      end
    else respond 405 "Method not allowed") w.


End Handlers.

(* ================================================================= *)
(** ** Concrete inputs *)

Module Samples.
Import Json JsValue Db Http Auth.
Local Open Scope string_scope.

Definition sample_now : Z := 1700000000000.
Definition empty_world : world := mkWorld [] [] O [].

(** Payload: object with sub abc, email a@b.c, exp 2000000000. *)
Definition token_valid : string :=
  "h.eyJzdWIiOiJhYmMiLCJlbWFpbCI6ImFAYi5jIiwiZXhwIjoyMDAwMDAwMDAwfQ.s".

(** Payload: object with sub abc, email a@b.c, exp 1000. *)
Definition token_expired : string :=
  "h.eyJzdWIiOiJhYmMiLCJlbWFpbCI6ImFAYi5jIiwiZXhwIjoxMDAwfQ.s".

(** Payload: object with sub abc and exp 0. *)
Definition token_exp_zero : string := "h.eyJzdWIiOiJhYmMiLCJleHAiOjB9.s".

(** Payload: the three bytes of a truncated object (brace, quote, a). *)
Definition token_truncated : string := "h.eyJh.s".

Definition admin_row : DbUser := mkDbUser O (Some "abc") (Some "a@b.c") "admin" O.
Definition admin_world : world := mkWorld [admin_row] [] 1 [].

Definition dq : string := String dquote EmptyString.

(** A survey id, in the canonical spelling of PostgreSQL's [uuid]. *)
Definition survey_a : string := "123e4567-e89b-12d3-a456-426614174000".

(** Body: object with surveyId [survey_a] and the given score literal. *)
Definition body_with_score (score : string) : string :=
  "{" ++ dq ++ "surveyId" ++ dq ++ ":" ++ dq ++ survey_a ++ dq ++ ","
      ++ dq ++ "score" ++ dq ++ ":" ++ score ++ "}".


Definition post (auth_header : option string) (b : string) : Request :=
  mkRequest "POST" "/api/ratings" None auth_header b.

End Samples.

(* ================================================================= *)
(** ** Frame conditions and table invariants *)

Module Invariants.
Import Db RatingsDb.

(** A query on the [users] table. *)
Definition user_query (o : op) : bool :=
  match o with
  | SelectUser _ | InsertUser _ _ _ => true
  | _ => false
  end.

(** [w'] differs from [w] only by the users queries the gate sends: the
    [ratings] table is the same and the log was extended by users queries. *)
Definition gate_step (w w' : world) : Prop :=
  ratings w' = ratings w /\
  exists ops, log w' = (log w ++ ops)%list /\ forallb user_query ops = true.

Definition gate_only {A} (m : M A) : Prop := forall w, gate_step w (snd (m w)).

(** Number of rows of the [(survey_id, user_id)] key of the upsert. *)
Definition count_key (sid : option string) (uid : nat) (rs : list Rating) : nat :=
  length (filter (same_key sid uid) rs).

(** At most one row per [(survey_id, user_id)] with a non-null [user_id]:
    the partial unique index the [ON CONFLICT] clause relies on. *)
Definition unique_keys (rs : list Rating) : Prop :=
  forall sid uid, (count_key sid uid rs <= 1)%nat.

(** A request computation that keeps [unique_keys] of the [ratings] table. *)
Definition keeps_unique {A} (m : M A) : Prop :=
  forall w, unique_keys (ratings w) -> unique_keys (ratings (snd (m w))).

Definition newest_first (rs : list Rating) : Prop :=
  Sorted (fun a b => (timestamp b <= timestamp a)%Z) rs.

End Invariants.

Module MoreSamples.
Import Db RatingsDb.
Local Open Scope string_scope.



(** Another survey id, and [survey_a] in capitals without hyphens. *)
Definition survey_b : string := "00000000-0000-0000-0000-0000000000b2".
Definition survey_a_upper : string := "123E4567E89B12D3A456426614174000".

Definition rating_at (i : nat) (sid : string) (ts : Z) (uid : option nat) : Rating :=
  mkRating i (Some sid) (JsValue.Fin 5) ts uid.

Definition get_req (path : string) (q : option string) (auth_header : option string) : Http.Request :=
  Http.mkRequest "GET" path q auth_header "".

Definition ratings_world : world :=
  mkWorld [] [rating_at 0 Samples.survey_a 10 None; rating_at 1 survey_b 20 None;
              rating_at 2 Samples.survey_a 30 (Some 7%nat)] 3 [].

End MoreSamples.

(* ================================================================= *)
(** ** The Netlify Blobs ratings handler *)

Module Blobs.
Import Json JsValue Http.
Local Open Scope string_scope.

(** The [pizza-ratings] store: the JSON value under [all-ratings] ([None]
    when the key is absent, which [store.get] reports as [null]) and the
    values written by [setJSON], in order. *)
Record bstore := mkBStore {
  blob : option json;
  b_writes : list json
}.

(** Which store calls of the current request fail. *)
Record bfaults := mkBFaults {
  get_fault : bool;
  set_fault : bool
}.

(** Code inside the [try]: state over the store, errors in [exn]. *)
Definition BM (A : Type) : Type := bstore -> (exn + A) * bstore.

Definition bret {A} (a : A) : BM A := fun s => (inr a, s).

Definition bbind {A B} (m : BM A) (k : A -> BM B) : BM B :=
  fun s => match m s with
           | (inl e, s') => (inl e, s')
           | (inr a, s') => k a s'
           end.

Definition blift {A} (x : exn + A) : BM A := fun s => (x, s).

Local Notation "x <- m ;; k" := (bbind m (fun x => k))
  (at level 61, m at next level, right associativity).

Definition MAX_RATINGS : nat := 100.

(** [getRatings]: [(data as Rating[]) || []]; the cast checks nothing. *)
Definition getRatings (fl : bfaults) : BM json :=
  fun s =>
    if get_fault fl then (inl DbError, s)
    else (inr (match blob s with
               | Some j => if truthy (Some j) then j else JArr []
               | None => JArr []
               end), s).

(** [saveRatings]: [store.setJSON(RATINGS_KEY, ratings)] *)
Definition saveRatings (fl : bfaults) (l : list json) : BM unit :=
  fun s =>
    if set_fault fl then (inl DbError, s)
    else (inr tt, mkBStore (Some (JArr l)) (b_writes s ++ [JArr l])).

(** [JSON.stringify] of a number: a non-finite one becomes [null]. *)
Definition num_json (n : jsnum) : json :=
  match n with Fin q => JNum q | _ => JNull end.

(** [{ id: crypto.randomUUID(), score, timestamp: Date.now() }] as stored. *)
Definition rating_json (uuid : string) (score : jsnum) (ts : Z) : json :=
  JObj [("id", JStr uuid); ("score", num_json score); ("timestamp", JNum (inject_Z ts))].

(** [ratings.unshift(newRating)]: only an array has an [unshift] method;
    on any other value the call throws. *)
Definition unshift (r : json) (v : json) : exn + list json :=
  match v with
  | JArr l => inr (r :: l)
  | _ => inl TypeError
  end.

Inductive BBody : Type :=
  | BNoBody
  | BError (error : string)
  | BJson (j : json).

Record BResponse := mkBResponse {
  b_status : Z;
  b_body : BBody
}.

(** The default export; [uuid] is [crypto.randomUUID()] and [now] is
    [Date.now()]. *)
Definition blobs_handler (fl : bfaults) (uuid : string) (now : Z) (req : Request) (s : bstore)
  : BResponse * bstore :=
  if String.eqb (method req) "OPTIONS" then (mkBResponse 204 BNoBody, s)
  else
    let m :=
      if String.eqb (method req) "GET" then
        ratings <- getRatings fl ;;
        bret (mkBResponse 200 (BJson ratings))
      else if String.eqb (method req) "POST" then
        body <- blift (Auth.parse_or_throw (list_ascii_of_string (body_text req))) ;;
        sc <- blift (get (Some body) "score") ;;
        score <- blift (to_number sc) ;;
        if Handlers.bad_score score then
          bret (mkBResponse 400 (BError "Score must be between 1 and 10"))
        else
          let newRating := rating_json uuid score now in
          ratings <- getRatings fl ;;
          l <- blift (unshift newRating ratings) ;;
          u <- saveRatings fl (firstn MAX_RATINGS l) ;;
          bret (mkBResponse 201 (BJson newRating))
      else bret (mkBResponse 405 (BError "Method not allowed")) in
    match m s with
    | (inl _, s') => (mkBResponse 500 (BError "Internal server error"), s')
    | (inr r, s') => (r, s')
    end.


End Blobs.

(* ================================================================= *)
(** ** [netlify/functions/me.ts] *)

Module Me.
Import Db Http Auth Handlers.
Local Open Scope string_scope.

Inductive MeBody : Type :=
  | MeNoBody
  | MeError (error : string)
  | MeAnonymous
  | MeUser (id : nat) (email : option string) (role : string).

Record MeResponse := mkMeResponse {
  me_status : Z;
  me_body : MeBody
}.

Definition me (fl : faults) (now : Z) (req : Request) (w : world) : MeResponse * world :=
  if String.eqb (method req) "OPTIONS" then (mkMeResponse 204 MeNoBody, w)
  else if negb (String.eqb (method req) "GET") then
    (mkMeResponse 405 (MeError "Method not allowed"), w)
  else
    let m :=
      a <- total (extractUser fl now (authorization req)) ;;
      match user a, dbUser a with
      | Some _, Some u => ret (mkMeResponse 200 (MeUser (id u) (email u) (role u)))
      | _, _ => ret (mkMeResponse 200 MeAnonymous)
      end in
    match m w with
    | (inl _, w') => (mkMeResponse 500 (MeError "Internal server error"), w')
    | (inr r, w') => (r, w')
    end.

End Me.

(* ================================================================= *)
(** ** The surveys handler ([/api/surveys] and [/api/surveys/:id])

    Its own store adds the [surveys] table to the database [world] of the
    ratings handlers. A [uuid] column is compared as PostgreSQL compares
    it: both sides go through [uuid_in]; a stored text that does not parse
    (which a [uuid] column cannot hold) matches nothing. [AVG(...)::float]
    is computed exactly, not rounded. *)

Module Surveys.
Import Json JsValue Http Auth Uuid.
Local Open Scope string_scope.

(** A row of [surveys]; [s_created_at] is the [now()] of its insert. *)
Record Survey := mkSurvey {
  s_id : string;
  description : string;
  s_created_at : Z
}.

(** The survey queries the handler sends, in order. *)
Inductive sop : Type :=
  | SelectSurvey (id : string)
  | UpdateSurvey (id description : string)
  | DeleteRatingsOf (id : string)
  | DeleteSurvey (id : string)
  | ListSurveys
  | InsertSurvey (description : string).

Record sworld := mkSWorld {
  db : Db.world;
  surveys : list Survey;
  s_log : list sop
}.

Definition SM (A : Type) : Type := sworld -> (exn + A) * sworld.

Definition sret {A} (a : A) : SM A := fun s => (inr a, s).

Definition sbind {A B} (m : SM A) (k : A -> SM B) : SM B :=
  fun s => match m s with
           | (inl e, s') => (inl e, s')
           | (inr a, s') => k a s'
           end.

Definition slift {A} (x : exn + A) : SM A := fun s => (x, s).

Local Notation "x <- m ;; k" := (sbind m (fun x => k))
  (at level 61, m at next level, right associativity).

Definition slog (o : sop) (s : sworld) : sworld :=
  mkSWorld (db s) (surveys s) (s_log s ++ [o]).

(** *** Rows with statistics *)

Record SurveyView := mkView {
  v_id : string;
  v_description : string;
  v_created_at : Z;
  rating_count : nat;
  average_score : option Q
}.

Definition score_q (n : jsnum) : Q := match n with Fin q => q | _ => 0%Q end.

(** [COUNT(r.id)::int] and [AVG(r.score)::float] over
    [LEFT JOIN ratings r ON r.survey_id = s.id]. *)
Definition stats (rs : list Db.Rating) (sv : Survey) : SurveyView :=
  let mine := match uuid_in (s_id sv) with
              | Some k => filter (fun r => same_uuid (Db.survey_id r) k) rs
              | None => []
              end in
  mkView (s_id sv) (description sv) (s_created_at sv) (length mine)
    (match mine with
     | [] => None
     | _ => Some (fold_right Qplus 0%Q (map (fun r => score_q (Db.score r)) mine)
                  / inject_Z (Z.of_nat (length mine)))%Q
     end).

Definition hit (k : list Z) (sv : Survey) : bool := same_uuid (Some (s_id sv)) k.

(** [ORDER BY s.created_at DESC]; rows with equal [created_at] keep table
    order (SQL leaves their order open). *)
Fixpoint insert_created (sv : Survey) (l : list Survey) : list Survey :=
  match l with
  | [] => [sv]
  | x :: t => if Z.leb (s_created_at x) (s_created_at sv) then sv :: l else x :: insert_created sv t
  end.

Definition sort_created (l : list Survey) : list Survey := fold_right insert_created [] l.

(** *** Queries; [sfl] makes every survey query fail *)

(** [SELECT ... WHERE s.id = $1::uuid GROUP BY s.id], first row *)
Definition select_survey (sfl : bool) (x : string) : SM (option SurveyView) :=
  fun s =>
    let s1 := slog (SelectSurvey x) s in
    if sfl then (inl DbError, s1)
    else match cast_uuid x with
         | inl e => (inl e, s1)
         | inr k => (inr (option_map (stats (Db.ratings (db s1))) (find (hit k) (surveys s1))), s1)
         end.

(** [UPDATE surveys SET description = $1 WHERE id = $2::uuid RETURNING ...], first row *)
Definition update_survey (sfl : bool) (x d : string) : SM (option Survey) :=
  fun s =>
    let s1 := slog (UpdateSurvey x d) s in
    if sfl then (inl DbError, s1)
    else match cast_uuid x with
         | inl e => (inl e, s1)
         | inr k =>
             let svs := map (fun sv => if hit k sv then mkSurvey (s_id sv) d (s_created_at sv) else sv)
                            (surveys s1) in
             (inr (find (hit k) svs), mkSWorld (db s1) svs (s_log s1))
         end.

Definition with_ratings (w : Db.world) (rs : list Db.Rating) : Db.world :=
  Db.mkWorld (Db.users w) rs (Db.next_id w) (Db.log w).

(** [DELETE FROM ratings WHERE survey_id = $1::uuid] *)
Definition delete_ratings_of (sfl : bool) (x : string) : SM unit :=
  fun s =>
    let s1 := slog (DeleteRatingsOf x) s in
    if sfl then (inl DbError, s1)
    else match cast_uuid x with
         | inl e => (inl e, s1)
         | inr k =>
             let rs := filter (fun r => negb (same_uuid (Db.survey_id r) k)) (Db.ratings (db s1)) in
             (inr tt, mkSWorld (with_ratings (db s1) rs) (surveys s1) (s_log s1))
         end.

(** [DELETE FROM surveys WHERE id = $1::uuid RETURNING id], first row *)
Definition delete_survey (sfl : bool) (x : string) : SM (option string) :=
  fun s =>
    let s1 := slog (DeleteSurvey x) s in
    if sfl then (inl DbError, s1)
    else match cast_uuid x with
         | inl e => (inl e, s1)
         | inr k =>
             (inr (option_map s_id (find (hit k) (surveys s1))),
              mkSWorld (db s1) (filter (fun sv => negb (hit k sv)) (surveys s1)) (s_log s1))
         end.

(** [SELECT ... GROUP BY s.id ORDER BY s.created_at DESC] *)
Definition list_surveys (sfl : bool) : SM (list SurveyView) :=
  fun s =>
    let s1 := slog ListSurveys s in
    if sfl then (inl DbError, s1)
    else (inr (map (stats (Db.ratings (db s1))) (sort_created (surveys s1))), s1).

(** [INSERT INTO surveys (description) VALUES ($1) RETURNING ...]; [uuid]
    is the [gen_random_uuid()] default and [now] the [now()] default. *)
Definition insert_survey (sfl : bool) (uuid : string) (now : Z) (d : string) : SM Survey :=
  fun s =>
    let s1 := slog (InsertSurvey d) s in
    if sfl then (inl DbError, s1)
    else let sv := mkSurvey uuid d now in
         (inr sv, mkSWorld (db s1) (surveys s1 ++ [sv]) (s_log s1)).

(** [requireAdmin(request)] on the database part of the store. *)
Definition admin (fl : Db.faults) (now : Z) (hdr : option string) : SM Guarded :=
  fun s => let (g, w') := requireAdmin fl now hdr (db s) in
           (inr g, mkSWorld w' (surveys s) (s_log s)).

(** *** [String.prototype.trim] on UTF-8 bytes *)

(** Length of the white space or line terminator code point the bytes
    start with (0 if none): tab, LF, VT, FF, CR, space, U+00A0, U+1680,
    U+2000 to U+200A, U+2028, U+2029, U+202F, U+205F, U+3000, U+FEFF. *)
Definition ws_len (l : list ascii) : nat :=
  match map (fun c => Z.of_nat (nat_of_ascii c)) (firstn 3 l) with
  | (9 | 10 | 11 | 12 | 13 | 32) :: _ => 1%nat
  | 194 :: 160 :: _ => 2%nat
  | 225 :: 154 :: 128 :: _ => 3%nat
  | 226 :: 128 :: c :: _ =>
      if (Z.leb 128 c && Z.leb c 138) || Z.eqb c 168 || Z.eqb c 169 || Z.eqb c 175 then 3%nat else 0%nat
  | 226 :: 129 :: 159 :: _ => 3%nat
  | 227 :: 128 :: 128 :: _ => 3%nat
  | 239 :: 187 :: 191 :: _ => 3%nat
  | _ => 0%nat
  end.

(** The same, for the last code point of reversed bytes. *)
Definition ws_len_rev (l : list ascii) : nat :=
  match map (fun c => Z.of_nat (nat_of_ascii c)) (firstn 3 l) with
  | (9 | 10 | 11 | 12 | 13 | 32) :: _ => 1%nat
  | 160 :: 194 :: _ => 2%nat
  | 128 :: 154 :: 225 :: _ => 3%nat
  | c :: 128 :: 226 :: _ =>
      if (Z.leb 128 c && Z.leb c 138) || Z.eqb c 168 || Z.eqb c 169 || Z.eqb c 175 then 3%nat else 0%nat
  | 159 :: 129 :: 226 :: _ => 3%nat
  | 128 :: 128 :: 227 :: _ => 3%nat
  | 191 :: 187 :: 239 :: _ => 3%nat
  | _ => 0%nat
  end.

Fixpoint drop_units (f : list ascii -> nat) (fuel : nat) (l : list ascii) : list ascii :=
  match fuel with
  | O => l
  | S k => match f l with
           | O => l
           | n => drop_units f k (skipn n l)
           end
  end.

Definition js_trim (l : list ascii) : list ascii :=
  rev (drop_units ws_len_rev (length l) (rev (drop_units ws_len (length l) l))).

(** [body.description?.trim()]: [undefined] for a missing or [null]
    description, a [TypeError] for one that is not a string. *)
Definition read_description (body : json) : exn + option string :=
  match get (Some body) "description" with
  | inl e => inl e
  | inr None | inr (Some JNull) => inr None
  | inr (Some (JStr d)) => inr (Some (string_of_list_ascii (js_trim (list_ascii_of_string d))))
  | inr (Some _) => inl TypeError
  end.

(** *** Routing *)

(** [url.pathname.split('/').filter(Boolean)] *)
Definition path_parts (p : string) : list string :=
  filter (fun x => negb (String.eqb x "")) (JsString.split "/"%char p).

Definition hex_or_dash (c : ascii) : bool :=
  match hex_value c with Some _ => true | None => Ascii.eqb c "-"%char end.

(** [/^[a-f0-9-]+$/i.test(x)] *)
Definition id_pattern (x : string) : bool :=
  match list_ascii_of_string x with
  | [] => false
  | l => forallb hex_or_dash l
  end.

Inductive SBody : Type :=
  | SNoBody
  | SError (error : string)
  | SOne (v : SurveyView)
  | SList (l : list SurveyView)
  | SSuccess.

Record SResponse := mkSResponse {
  s_status : Z;
  s_body : SBody
}.

Definition srespond (st : Z) (msg : string) : SM SResponse := sret (mkSResponse st (SError msg)).

(** The [errorResponse] of [requireAdmin], which always carries
    [{ error }]. *)
Definition of_guard (r : Response) : SResponse :=
  mkSResponse (status r) (match body r with ErrBody e => SError e | _ => SNoBody end).

(** [catch (error) { ... status: 500 }] *)
Definition srun (m : SM SResponse) (s : sworld) : SResponse * sworld :=
  match m s with
  | (inl _, s') => (mkSResponse 500 (SError "Internal server error"), s')
  | (inr r, s') => (r, s')
  end.

(** [surveyId]: the third non-empty path segment when there are exactly three. *)
Definition survey_id_of (p : string) : option string :=
  let parts := path_parts p in
  if Nat.eqb (length parts) 3 then Some (nth 2 parts "") else None.

(** [isValidId]: [surveyId && /^[a-f0-9-]+$/i.test(surveyId)] *)
Definition is_valid_id (p : string) : bool :=
  match survey_id_of p with Some x => id_pattern x | None => false end.

(** [GET /api/surveys/:id] *)
Definition get_one (sfl : bool) (sid : string) : SM SResponse :=
  survey <- select_survey sfl sid ;;
  match survey with
  | None => srespond 404 "Survey not found"
  | Some v => sret (mkSResponse 200 (SOne v))
  end.

(** [PUT /api/surveys/:id] *)
Definition put_one (fl : Db.faults) (sfl : bool) (now : Z) (req : Request) (sid : string)
  : SM SResponse :=
  g <- admin fl now (authorization req) ;;
  match errorResponse g with
  | Some r => sret (of_guard r)
  | None =>
      b <- slift (parse_or_throw (list_ascii_of_string (body_text req))) ;;
      d <- slift (read_description b) ;;
      match d with
      | None | Some "" => srespond 400 "Description is required"
      | Some descr =>
          updated <- update_survey sfl sid descr ;;
          match updated with
          | None => srespond 404 "Survey not found"
          | Some _ =>
              survey <- select_survey sfl sid ;;
              match survey with
              | Some v => sret (mkSResponse 200 (SOne v))
              | None => sret (mkSResponse 200 SNoBody)
              end
          end
      end
  end.

(** [DELETE /api/surveys/:id] *)
Definition delete_one (fl : Db.faults) (sfl : bool) (now : Z) (req : Request) (sid : string)
  : SM SResponse :=
  g <- admin fl now (authorization req) ;;
  match errorResponse g with
  | Some r => sret (of_guard r)
  | None =>
      u <- delete_ratings_of sfl sid ;;
      deleted <- delete_survey sfl sid ;;
      match deleted with
      | None => srespond 404 "Survey not found"
      | Some _ => sret (mkSResponse 200 SSuccess)
      end
  end.

(** [GET /api/surveys] *)
Definition get_list (sfl : bool) : SM SResponse :=
  svs <- list_surveys sfl ;;
  sret (mkSResponse 200 (SList svs)).

(** [POST /api/surveys] *)
Definition create (fl : Db.faults) (sfl : bool) (now : Z) (uuid : string) (req : Request)
  : SM SResponse :=
  g <- admin fl now (authorization req) ;;
  match errorResponse g with
  | Some r => sret (of_guard r)
  | None =>
      b <- slift (parse_or_throw (list_ascii_of_string (body_text req))) ;;
      d <- slift (read_description b) ;;
      match d with
      | None | Some "" => srespond 400 "Description is required"
      | Some descr =>
          newSurvey <- insert_survey sfl uuid now descr ;;
          sret (mkSResponse 201 (SOne (mkView (s_id newSurvey) (description newSurvey)
                                              (s_created_at newSurvey) O None)))
      end
  end.

(** The default export; [uuid] and [now] are the defaults of a new row. *)
Definition surveys_handler (fl : Db.faults) (sfl : bool) (now : Z) (uuid : string)
    (req : Request) (s : sworld) : SResponse * sworld :=
  if String.eqb (method req) "OPTIONS" then (mkSResponse 204 SNoBody, s)
  else
    let surveyId := survey_id_of (pathname req) in
    let isValidId := is_valid_id (pathname req) in
    let sid := match surveyId with Some x => x | None => "" end in
    srun (if isValidId && String.eqb (method req) "GET" then get_one sfl sid
          else if isValidId && String.eqb (method req) "PUT" then put_one fl sfl now req sid
          else if isValidId && String.eqb (method req) "DELETE" then delete_one fl sfl now req sid
          else if String.eqb (method req) "GET" then get_list sfl
          else if String.eqb (method req) "POST" then create fl sfl now uuid req
          else srespond 405 "Method not allowed") s.

End Surveys.

Module SurveySamples.
Import Json JsValue Db Http Uuid Surveys Samples.
Local Open Scope string_scope.

Definition uuid1 : string := "123e4567-e89b-12d3-a456-426614174000".

(** [uuid1] in capitals and without hyphens. *)
Definition uuid1_upper : string := "123E4567E89B12D3A456426614174000".

Definition uuid2 : string := "00000000-0000-0000-0000-0000000000a2".

(** Two surveys; the first has ratings 8 and 6, the second rating 3; the
    only user is the admin of [admin_row]. *)
Definition survey_world : sworld :=
  mkSWorld (mkWorld [admin_row]
                    [mkRating 0 (Some uuid1) (JsValue.Fin 8) 10 None;
                     mkRating 1 (Some uuid1) (JsValue.Fin 6) 20 None;
                     mkRating 2 (Some uuid2) (JsValue.Fin 3) 30 None] 3 [])
           [mkSurvey uuid1 "Margherita" 100; mkSurvey uuid2 "Pepperoni" 200] [].

Definition sreq (m path : string) (auth_header : option string) (b : string) : Request :=
  mkRequest m path None auth_header b.

Definition admin_auth : option string := Some ("Bearer " ++ token_valid).

(** Body: object whose description is the given text. *)
Definition desc_body (d : string) : string :=
  "{" ++ dq ++ "description" ++ dq ++ ":" ++ dq ++ d ++ dq ++ "}".

End SurveySamples.

(* ================================================================= *)
(** * Properties of the authentication gate *)

Module AuthFacts.
Import Json JsValue Db Http Auth Samples.
Local Open Scope string_scope.

Lemma prefix_app p t : String.prefix p (p ++ t) = true.
Proof.
  induction p as [| a p IH]; simpl.
  - destruct t; reflexivity.
  - destruct (ascii_dec a a) as [_ | n]; [exact IH | contradiction].
Qed.

Lemma extractUser_bearer fl now tok w :
  extractUser fl now (Some ("Bearer " ++ tok)) w =
  match extract_try fl now tok w with
  | (inl _, w') => (verify_failed, w')
  | (inr r, w') => (r, w')
  end.
Proof.
  unfold extractUser, JsString.startsWith. rewrite prefix_app. reflexivity.
Qed.

Lemma requireAuth_bearer fl now tok w :
  requireAuth fl now (Some ("Bearer " ++ tok)) w =
  match extract_try fl now tok w with
  | (inl _, w') => (mkGuarded verify_failed (Some (unauthorizedResponse "Failed to verify token")), w')
  | (inr a, w') =>
      match user a, dbUser a with
      | Some _, Some _ => (mkGuarded a None, w')
      | _, _ => (mkGuarded a (Some (unauthorizedResponse (reason a))), w')
      end
  end.
Proof.
  unfold requireAuth. pose proof (extractUser_bearer fl now tok w) as E.
  destruct (extract_try fl now tok w) as [[e | a] w'];
    destruct (extractUser fl now (Some ("Bearer " ++ tok)) w); inversion E; reflexivity.
Qed.

Lemma extract_try_segments fl now tok w :
  length (JsString.split "." tok) <> 3%nat ->
  extract_try fl now tok w = (inr (mkAuthResult None None (Some "Invalid token format")), w).
Proof.
  intros H. unfold extract_try. cbv zeta.
  destruct (Nat.eqb_spec (length (JsString.split "." tok)) 3); [contradiction | reflexivity].
Qed.

Lemma extract_try_unparsable fl now tok w :
  length (JsString.split "." tok) = 3%nat ->
  Json.parse (payload_text (nth 1 (JsString.split "." tok) "")) = None ->
  extract_try fl now tok w = (inl SyntaxError, w).
Proof.
  intros H3 Hp. unfold extract_try. cbv zeta. rewrite H3.
  change (negb (3 =? 3)%nat) with false. cbv iota.
  unfold bind at 1, lift, parse_or_throw. rewrite Hp. reflexivity.
Qed.

Lemma bind_inr {A B} (m : M A) (k : A -> M B) w b w' :
  bind m k w = (inr b, w') -> exists a w1, m w = (inr a, w1) /\ k a w1 = (inr b, w').
Proof. unfold bind. destruct (m w) as [[e | a] w1]; [discriminate | eauto]. Qed.

(** Past the segment count, [extract_try] reports no reason or ["Token expired"]. *)
Lemma extract_try_three_reason fl now tok w a w' :
  length (JsString.split "." tok) = 3%nat -> extract_try fl now tok w = (inr a, w') ->
  error a = None \/ error a = Some "Token expired".
Proof.
  intros H3. unfold extract_try. cbv zeta. rewrite H3.
  change (negb (3 =? 3)%nat) with false. cbv iota. intros H.
  apply bind_inr in H as [p [w1 [_ H]]]. apply bind_inr in H as [ex [w2 [_ H]]].
  destruct ex; [unfold ret in H; injection H as <- _; right; reflexivity |].
  apply bind_inr in H as [? [? [_ H]]]. apply bind_inr in H as [? [? [_ H]]].
  apply bind_inr in H as [? [? [_ H]]]. apply bind_inr in H as [? [? [_ H]]].
  apply bind_inr in H as [? [? [_ H]]].
  unfold ret in H. injection H as <- _. left. reflexivity.
Qed.



(** ** Find-or-create *)







(** ** The [users] table only grows *)









(** ** Claims *)

(** C1: [requireAdmin] propagates a failed [requireAuth] response unchanged;
    after a successful authentication it answers 403 ["Admin access
    required"] when the Local User's role is not exactly ["admin"], and
    returns the identity with no error response when it is. *)
Theorem requireAdmin_decision fl now hdr w g w' :
  requireAuth fl now hdr w = (g, w') ->
  (forall r, errorResponse g = Some r ->
             requireAdmin fl now hdr w = (mkGuarded (auth g) (Some r), w')) /\
  (errorResponse g = None ->
   exists u, dbUser (auth g) = Some u /\
     (role u <> "admin" ->
      requireAdmin fl now hdr w =
        (mkGuarded (auth g) (Some (mkResponse 403 (ErrBody "Admin access required"))), w')) /\
     (role u = "admin" -> requireAdmin fl now hdr w = (mkGuarded (auth g) None, w'))).
Proof.
  intros H. unfold requireAdmin. rewrite H. split.
  - intros r Hr. rewrite Hr. reflexivity.
  - intros Hn. rewrite Hn.
    unfold requireAuth in H. destruct (extractUser fl now hdr w) as [a w0].
    destruct (user a) eqn:Eu, (dbUser a) as [u |] eqn:Ed; inversion H; subst; simpl in *;
      try discriminate.
    exists u. split; [exact Ed |]. split.
    + intros Hr. rewrite Ed. destruct (String.eqb_spec (role u) "admin"); [contradiction | reflexivity].
    + intros Hr. rewrite Ed, Hr. reflexivity.
Qed.

(** C3: a request whose [Authorization] header is absent or does not start
    with ["Bearer "] gets 401 ["Authentication required"], and the world
    (tables and query log) is untouched: no lookup and no insert. *)
Theorem requireAuth_without_bearer fl now hdr w :
  (hdr = None \/ exists h, hdr = Some h /\ JsString.startsWith h "Bearer " = false) ->
  requireAuth fl now hdr w =
    (mkGuarded no_credentials (Some (mkResponse 401 (ErrBody "Authentication required"))), w).
Proof.
  intros [-> | [h [-> Hs]]]; unfold requireAuth, extractUser; [reflexivity |].
  rewrite Hs, orb_true_r. reflexivity.
Qed.

(** C8: a bearer token that does not split on ["."] into exactly three
    segments gets 401 ["Invalid token format"], with no query sent. *)
Theorem requireAuth_segment_count fl now tok w :
  length (JsString.split "." tok) <> 3%nat ->
  requireAuth fl now (Some ("Bearer " ++ tok)) w =
    (mkGuarded (mkAuthResult None None (Some "Invalid token format"))
               (Some (mkResponse 401 (ErrBody "Invalid token format"))), w).
Proof.
  intros H. rewrite requireAuth_bearer, (extract_try_segments fl now tok w H). reflexivity.
Qed.

(** C4 (as the code has it): a three-segment bearer token whose middle
    segment does not decode to valid JSON is caught by the catch-all and
    gets 401 ["Failed to verify token"]; no query is sent and nothing is
    thrown out of the guard. The 401 ["Invalid token format"] is given to
    a bearer token whose segment count is not three, and to no other
    request. *)
Theorem requireAuth_unparsable_payload fl now tok w :
  length (JsString.split "." tok) = 3%nat ->
  Json.parse (payload_text (nth 1 (JsString.split "." tok) "")) = None ->
  requireAuth fl now (Some ("Bearer " ++ tok)) w =
    (mkGuarded verify_failed (Some (mkResponse 401 (ErrBody "Failed to verify token"))), w) /\
  (forall hdr w0,
     errorResponse (fst (requireAuth fl now hdr w0)) = Some (mkResponse 401 (ErrBody "Invalid token format")) ->
     exists h, hdr = Some h /\ JsString.startsWith h "Bearer " = true /\
               length (JsString.split "." (JsString.slice 7 h)) <> 3%nat).
Proof.
  intros H3 Hp. split.
  { rewrite requireAuth_bearer, (extract_try_unparsable fl now tok w H3 Hp). reflexivity. }
  intros [h |] w0; unfold requireAuth, extractUser; [| intros H; discriminate].
  destruct (String.eqb h EmptyString || negb (JsString.startsWith h "Bearer ")) eqn:B;
    [intros H; discriminate |].
  apply orb_false_iff in B as [_ B]. apply negb_false_iff in B.
  intros H. exists h. split; [reflexivity | split; [exact B |]]. intros E.
  destruct (extract_try fl now (JsString.slice 7 h) w0) as [[ex | a] w'] eqn:X;
    [discriminate |].
  destruct (extract_try_three_reason _ _ _ _ _ _ E X) as [R | R];
    destruct (user a), (dbUser a); cbn [fst errorResponse] in H; try discriminate;
    unfold unauthorizedResponse, reason in H; rewrite R in H; discriminate.
Qed.











(** C4 fails as stated: the truncated payload is a decode failure, yet the
    reason is ["Failed to verify token"], not ["Invalid token format"]. *)
Lemma truncated_payload_reason :
  length (JsString.split "." token_truncated) = 3%nat /\
  Json.parse (payload_text (nth 1 (JsString.split "." token_truncated) "")) = None /\
  errorResponse (fst (requireAuth no_faults sample_now (Some ("Bearer " ++ token_truncated)) empty_world))
    <> Some (mkResponse 401 (ErrBody "Invalid token format")).
Proof. split; [reflexivity | split; [vm_compute; reflexivity | vm_compute; discriminate]]. Qed.

(** C5: a token whose [exp] is [0] is past ([0 * 1000 < now]) but [0] is
    falsy, so the expiry test is skipped and the request is authenticated. *)
Lemma exp_zero_accepted :
  Json.parse (payload_text (nth 1 (JsString.split "." token_exp_zero) ""))
    = Some (JObj [("sub", JStr "abc"); ("exp", JNum 0)]) /\
  lt (times1000 (Fin 0)) (Fin (inject_Z sample_now)) = true /\
  requireAuth no_faults sample_now (Some ("Bearer " ++ token_exp_zero)) empty_world =
    (mkGuarded (mkAuthResult
                  (Some (mkNetlifyUser (Some (JStr "abc")) None None None))
                  (Some (mkDbUser O (Some "abc") None "user" O)) None) None,
     mkWorld [mkDbUser O (Some "abc") None "user" O] [] 1
             [SelectUser (Some "abc"); InsertUser (Some "abc") None "user"]).
Proof. split; [| split]; vm_compute; reflexivity. Qed.

(** C1 at concrete inputs: the same token is refused for a ["user"] row and
    accepted for an ["admin"] row. *)
Lemma requireAdmin_decision_witness :
  requireAdmin no_faults sample_now (Some ("Bearer " ++ token_valid)) admin_world
    = (mkGuarded (auth (fst (requireAuth no_faults sample_now (Some ("Bearer " ++ token_valid)) admin_world))) None,
       snd (requireAuth no_faults sample_now (Some ("Bearer " ++ token_valid)) admin_world)).
Proof.
  destruct (requireAdmin_decision no_faults sample_now (Some ("Bearer " ++ token_valid)) admin_world
              (fst (requireAuth no_faults sample_now (Some ("Bearer " ++ token_valid)) admin_world))
              (snd (requireAuth no_faults sample_now (Some ("Bearer " ++ token_valid)) admin_world))
              eq_refl) as [_ H].
  destruct (H eq_refl) as [u [Hu [_ Ha]]].
  apply Ha. vm_compute in Hu. injection Hu as <-. reflexivity.
Defined.

Lemma requireAuth_without_bearer_witness :
  requireAuth no_faults sample_now (Some "Basic abc") empty_world =
    (mkGuarded no_credentials (Some (mkResponse 401 (ErrBody "Authentication required"))), empty_world).
Proof.
  apply requireAuth_without_bearer. right. exists "Basic abc". split; reflexivity.
Defined.

Lemma requireAuth_segment_count_witness :
  requireAuth no_faults sample_now (Some ("Bearer " ++ "a.b")) empty_world =
    (mkGuarded (mkAuthResult None None (Some "Invalid token format"))
               (Some (mkResponse 401 (ErrBody "Invalid token format"))), empty_world).
Proof.
  apply requireAuth_segment_count. vm_compute. discriminate.
Defined.

Lemma requireAuth_unparsable_payload_witness :
  requireAuth no_faults sample_now (Some ("Bearer " ++ token_truncated)) empty_world =
    (mkGuarded verify_failed (Some (mkResponse 401 (ErrBody "Failed to verify token"))), empty_world).
Proof.
  apply (proj1 (requireAuth_unparsable_payload no_faults sample_now token_truncated empty_world
                  eq_refl ltac:(vm_compute; reflexivity))).
Defined.

End AuthFacts.

(* ================================================================= *)
(** * Properties of the ratings handlers *)

Module HandlerFacts.
Import Json JsValue Db Http Auth RatingsDb Handlers Samples.
Local Open Scope string_scope.


(** [request.json()] on an object body. *)
Lemma read_body_obj req kv n w :
  Json.parse (list_ascii_of_string (body_text req)) = Some (JObj kv) ->
  to_number (own kv "score") = inr n ->
  read_body req w = (inr (n, own kv "surveyId"), w).
Proof.
  intros Hp Hn. unfold read_body, bind, lift, parse_or_throw. rewrite Hp.
  unfold get. cbv beta iota. rewrite Hn. reflexivity.
Qed.


Lemma read_body_world req w :
  snd (read_body req w) = w.
Proof.
  unfold read_body, bind, lift.
  destruct (parse_or_throw (list_ascii_of_string (body_text req))) as [e | j]; [reflexivity |].
  destruct (get (Some j) "score") as [e | s]; [reflexivity |].
  destruct (to_number s) as [e | m]; [reflexivity |].
  destruct (get (Some j) "surveyId"); reflexivity.
Qed.

Lemma post_not_options req : method req = "POST" -> String.eqb (method req) "OPTIONS" = false.
Proof. intros ->. reflexivity. Qed.

Lemma post_not_get req : method req = "POST" -> String.eqb (method req) "GET" = false.
Proof. intros ->. reflexivity. Qed.

Lemma post_is_post req : method req = "POST" -> String.eqb (method req) "POST" = true.
Proof. intros ->. reflexivity. Qed.

(** The POST branch of [ratings.ts]. *)
Lemma ratings_public_post fl now req w :
  method req = "POST" ->
  ratings_public fl now req w =
  run_handler (
    sb <- read_body req ;;
    let (score, surveyId) := sb in
    if negb (truthy surveyId) then respond 400 "surveyId is required"
    else if bad_score score then respond 400 "Score must be between 1 and 10"
    else
      newRating <- insert_rating fl (param surveyId) score now ;;
      ret (mkResponse 201 (RatingBody newRating))) w.
Proof.
  intros Hm. unfold ratings_public.
  rewrite (post_not_options req Hm), (post_not_get req Hm), (post_is_post req Hm). reflexivity.
Qed.











End HandlerFacts.

(* ================================================================= *)
(** * Further properties of the gate *)

Module GateExtras.
Import Json JsValue Db Http Auth Invariants Samples MoreSamples AuthFacts.
Local Open Scope string_scope.

Lemma gate_step_refl w : gate_step w w.
Proof. split; [reflexivity |]. exists []. rewrite app_nil_r. split; reflexivity. Qed.

Lemma gate_step_trans w1 w2 w3 : gate_step w1 w2 -> gate_step w2 w3 -> gate_step w1 w3.
Proof.
  intros [R1 [o1 [L1 F1]]] [R2 [o2 [L2 F2]]]. split; [congruence |].
  exists (o1 ++ o2)%list. split.
  - rewrite L2, L1, app_assoc. reflexivity.
  - rewrite forallb_app, F1, F2. reflexivity.
Qed.

Lemma gate_step_sent o w : user_query o = true -> gate_step w (sent o w).
Proof.
  intros H. split; [reflexivity |]. exists [o]. split; [reflexivity |]. simpl. rewrite H. reflexivity.
Qed.

Lemma gate_only_ret {A} (a : A) : gate_only (ret a).
Proof. intros w. apply gate_step_refl. Qed.

Lemma gate_only_lift {A} (x : exn + A) : gate_only (lift x).
Proof. intros w. apply gate_step_refl. Qed.

Lemma gate_only_bind {A B} (m : M A) (k : A -> M B) :
  gate_only m -> (forall a, gate_only (k a)) -> gate_only (bind m k).
Proof.
  intros Hm Hk w. unfold bind. specialize (Hm w).
  destruct (m w) as [[e | a] w1]; simpl in *; [exact Hm |].
  exact (gate_step_trans _ _ _ Hm (Hk a w1)).
Qed.

Lemma gate_only_select_user fl k : gate_only (select_user fl k).
Proof.
  intros w. unfold select_user. destruct (lookup_fault fl); apply gate_step_sent; reflexivity.
Qed.

Lemma gate_only_insert_user fl k e r : gate_only (insert_user fl k e r).
Proof.
  intros w. unfold insert_user. destruct (insert_fault fl); [apply gate_step_sent; reflexivity |].
  split; [reflexivity |]. exists [InsertUser k e r]. split; reflexivity.
Qed.

Ltac gate_only_step :=
  match goal with
  | |- gate_only (bind _ _) => apply gate_only_bind; [| intro]
  | |- gate_only (ret _) => apply gate_only_ret
  | |- gate_only (lift _) => apply gate_only_lift
  | |- gate_only (select_user _ _) => apply gate_only_select_user
  | |- gate_only (insert_user _ _ _ _) => apply gate_only_insert_user
  | |- gate_only (find_or_create _ _) => unfold find_or_create
  | |- gate_only (is_expired _ _) => unfold is_expired
  | |- gate_only (if ?b then _ else _) => destruct b
  | |- gate_only (match ?x with _ => _ end) => destruct x
  end.

Lemma gate_only_extract_try fl now tok : gate_only (extract_try fl now tok).
Proof. unfold extract_try. cbv zeta. repeat gate_only_step. Qed.

Lemma extractUser_gate fl now hdr w : gate_step w (snd (extractUser fl now hdr w)).
Proof.
  unfold extractUser. destruct hdr as [h |]; [| apply gate_step_refl].
  destruct (String.eqb h EmptyString || negb (JsString.startsWith h "Bearer "));
    [apply gate_step_refl |].
  pose proof (gate_only_extract_try fl now (JsString.slice 7 h) w) as H.
  destruct (extract_try fl now (JsString.slice 7 h) w) as [[e | a] w']; exact H.
Qed.

Lemma requireAuth_gate fl now hdr w : gate_step w (snd (requireAuth fl now hdr w)).
Proof.
  unfold requireAuth. pose proof (extractUser_gate fl now hdr w) as E.
  destruct (extractUser fl now hdr w) as [a w']. destruct (user a), (dbUser a); exact E.
Qed.

Lemma requireAuth_world fl now hdr w :
  snd (requireAuth fl now hdr w) = snd (extractUser fl now hdr w).
Proof.
  unfold requireAuth. destruct (extractUser fl now hdr w) as [a w']. destruct (user a), (dbUser a); reflexivity.
Qed.




(** The gate ([requireAuth], and [requireAdmin] on top of it) never
    changes the [ratings] table, and every query it sends is a lookup in or
    an insert into [users]. *)
Theorem gate_frame fl now hdr w :
  gate_step w (snd (requireAuth fl now hdr w)) /\ gate_step w (snd (requireAdmin fl now hdr w)).
Proof.
  pose proof (requireAuth_gate fl now hdr w) as H.
  split; [exact H |].
  unfold requireAdmin. destruct (requireAuth fl now hdr w) as [g w']. simpl in H.
  destruct (errorResponse g); [exact H |].
  destruct (match dbUser (auth g) with Some u => String.eqb (role u) "admin" | None => false end);
    exact H.
Qed.





End GateExtras.

(* ================================================================= *)
(** * Further properties of the ratings handlers *)

Module RatingsExtras.
Import Json JsValue Db Http Auth Uuid RatingsDb Handlers Invariants Samples MoreSamples
       AuthFacts HandlerFacts GateExtras.
Local Open Scope string_scope.

Lemma insert_desc_in r l x : In x (insert_desc r l) <-> In x (r :: l).
Proof.
  induction l as [| y l IH]; simpl; [reflexivity |].
  destruct (timestamp y <=? timestamp r)%Z; [reflexivity |]. simpl. rewrite IH. simpl. tauto.
Qed.

Lemma sort_desc_in l x : In x (sort_desc l) <-> In x l.
Proof.
  induction l as [| y l IH]; simpl; [reflexivity |].
  rewrite insert_desc_in. simpl. rewrite IH. reflexivity.
Qed.

Lemma insert_desc_length r l : length (insert_desc r l) = S (length l).
Proof.
  induction l as [| y l IH]; simpl; [reflexivity |].
  destruct (timestamp y <=? timestamp r)%Z; simpl; [reflexivity | rewrite IH; reflexivity].
Qed.

Lemma sort_desc_length l : length (sort_desc l) = length l.
Proof.
  induction l as [| y l IH]; simpl; [reflexivity |]. rewrite insert_desc_length, IH. reflexivity.
Qed.

Lemma insert_desc_hd y r l :
  HdRel (fun a b => (timestamp b <= timestamp a)%Z) y l -> (timestamp r <= timestamp y)%Z ->
  HdRel (fun a b => (timestamp b <= timestamp a)%Z) y (insert_desc r l).
Proof.
  intros H Hr. destruct l as [| z l]; simpl.
  - constructor. exact Hr.
  - destruct (timestamp z <=? timestamp r)%Z; constructor; [exact Hr | inversion H; assumption].
Qed.

Lemma insert_desc_sorted r l : newest_first l -> newest_first (insert_desc r l).
Proof.
  unfold newest_first. induction l as [| y l IH]; intros H; simpl.
  - constructor; constructor.
  - destruct (Z.leb_spec (timestamp y) (timestamp r)) as [Hle | Hgt].
    + constructor; [exact H | constructor; exact Hle].
    + inversion H as [| ? ? Hs Hh]; subst. constructor; [exact (IH Hs) |].
      apply insert_desc_hd; [exact Hh | lia].
Qed.

Lemma sort_desc_sorted l : newest_first (sort_desc l).
Proof.
  induction l as [| y l IH]; simpl; [constructor |]. apply insert_desc_sorted. exact IH.
Qed.

Lemma firstn_sorted {A} (R : A -> A -> Prop) n l : Sorted R l -> Sorted R (firstn n l).
Proof.
  revert l. induction n as [| n IH]; intros l H; simpl; [constructor |].
  destruct l as [| a l]; [constructor |].
  inversion H as [| ? ? Hs Hh]; subst. constructor; [exact (IH l Hs) |].
  destruct n; simpl; [constructor |].
  destruct l; [constructor | inversion Hh; constructor; assumption].
Qed.

Lemma in_firstn {A} n (l : list A) x : In x (firstn n l) -> In x l.
Proof.
  intros H. rewrite <- (firstn_skipn n l). apply in_or_app. left. exact H.
Qed.

Lemma same_uuid_spec c k : same_uuid c k = true <-> exists x, c = Some x /\ uuid_in x = Some k.
Proof.
  destruct c as [x |]; simpl.
  - destruct (uuid_in x) as [k' |] eqn:E.
    + destruct (list_eq_dec Z.eq_dec k' k) as [-> | n].
      * split; [intros _; exists x; split; [reflexivity | exact E] | reflexivity].
      * split; [discriminate | intros [y [Hy Hk]]; injection Hy as <-].
        rewrite E in Hk. injection Hk as ->. contradiction.
    + split; [discriminate | intros [y [Hy Hk]]; injection Hy as <-; congruence].
  - split; [discriminate | intros [y [Hy _]]; discriminate].
Qed.

Lemma uuid_eq_spec c a :
  uuid_eq c a = true <-> exists y k, a = Some y /\ uuid_in y = Some k /\ same_uuid c k = true.
Proof.
  destruct a as [y |]; simpl.
  - destruct (uuid_in y) as [k |] eqn:E.
    + split; [intros H; exists y, k; auto | intros [y' [k' [Hy [Hk Hs]]]]].
      injection Hy as <-. rewrite E in Hk. injection Hk as <-. exact Hs.
    + split; [discriminate | intros [y' [k' [Hy [Hk _]]]]]. injection Hy as <-. congruence.
  - split; [discriminate | intros [y [k [Hy _]]]; discriminate].
Qed.

Lemma uuid_eq_of c sid k : uuid_in sid = Some k -> uuid_eq c (Some sid) = same_uuid c k.
Proof. intros H. unfold uuid_eq. rewrite H. reflexivity. Qed.

(** Two columns holding the same uuid compare alike with every key. *)
Lemma uuid_eq_same_col c1 c2 k :
  same_uuid c1 k = true -> same_uuid c2 k = true -> forall a, uuid_eq c1 a = uuid_eq c2 a.
Proof.
  intros H1 H2 a. apply same_uuid_spec in H1 as [x1 [-> E1]]. apply same_uuid_spec in H2 as [x2 [-> E2]].
  destruct a as [y |]; simpl; [| reflexivity].
  destruct (uuid_in y); [| reflexivity]. rewrite E1, E2. reflexivity.
Qed.

(** Two keys holding the same uuid select the same rows. *)
Lemma uuid_eq_same_key c1 a : uuid_eq c1 a = true -> forall c, uuid_eq c a = uuid_eq c c1.
Proof.
  intros H c. apply uuid_eq_spec in H as [y [k [-> [Ek Hs]]]].
  apply same_uuid_spec in Hs as [x [-> Ex]]. unfold uuid_eq. rewrite Ek, Ex. reflexivity.
Qed.

Lemma ratings_public_get fl now req w :
  method req = "GET" -> ratings_public fl now req w = run_handler (get_all fl req) w.
Proof. intros Hm. unfold ratings_public. rewrite Hm. reflexivity. Qed.

Lemma ratings_auth_get fl now req w :
  method req = "GET" -> endsWith (pathname req) "/my" = false ->
  ratings_auth fl now req w = run_handler (get_all fl req) w.
Proof. intros Hm He. unfold ratings_auth. rewrite Hm, He. reflexivity. Qed.

Lemma get_all_ok fl req sid k w :
  query_surveyId req = Some sid -> uuid_in sid = Some k -> ratings_fault fl = false ->
  run_handler (get_all fl req) w =
  (mkResponse 200 (RatingsBody (firstn MAX_RATINGS
      (sort_desc (filter (fun r => same_uuid (survey_id r) k) (ratings w))))),
   sent (SelectRatings (Some sid)) w).
Proof.
  intros Hq Hk Hf. unfold run_handler, get_all. rewrite Hq.
  destruct sid as [| c s]; [discriminate |]. unfold bind, select_ratings. rewrite Hf. cbv zeta.
  rewrite (filter_ext _ _ (fun r => uuid_eq_of (survey_id r) _ k Hk)). reflexivity.
Qed.

(** [GET /api/ratings?surveyId=s] with a uuid [s] (both handlers; the
    authenticated one off the [/my] path) answers 200 with at most 100
    ratings, newest first, all taken from the table and all of the survey
    whose uuid [s] spells, whatever the spelling of [s] or of the stored
    key; when the survey has at most 100 ratings, all of them are
    returned. Only the select is sent. *)
Theorem ratings_list_by_survey fl now req w sid k :
  method req = "GET" -> query_surveyId req = Some sid -> uuid_in sid = Some k ->
  ratings_fault fl = false -> endsWith (pathname req) "/my" = false ->
  exists rs,
    ratings_public fl now req w = (mkResponse 200 (RatingsBody rs), sent (SelectRatings (Some sid)) w) /\
    ratings_auth fl now req w = (mkResponse 200 (RatingsBody rs), sent (SelectRatings (Some sid)) w) /\
    (length rs <= 100)%nat /\ newest_first rs /\
    (forall r, In r rs -> In r (ratings w) /\ same_uuid (survey_id r) k = true) /\
    ((length (filter (fun r => same_uuid (survey_id r) k) (ratings w)) <= 100)%nat ->
     forall r, In r (ratings w) -> same_uuid (survey_id r) k = true -> In r rs).
Proof.
  intros Hm Hq Hk Hf He.
  exists (firstn MAX_RATINGS (sort_desc (filter (fun r => same_uuid (survey_id r) k) (ratings w)))).
  rewrite (ratings_public_get fl now req w Hm), (ratings_auth_get fl now req w Hm He),
          (get_all_ok fl req sid k w Hq Hk Hf).
  split; [reflexivity | split; [reflexivity | split; [| split; [| split]]]].
  - rewrite length_firstn. unfold MAX_RATINGS. lia.
  - apply firstn_sorted, sort_desc_sorted.
  - intros r Hr. apply in_firstn, sort_desc_in, filter_In in Hr. exact Hr.
  - intros Hlen r Hin Hsid. rewrite firstn_all2 by (rewrite sort_desc_length; exact Hlen).
    apply sort_desc_in, filter_In. split; assumption.
Qed.

Lemma ratings_list_by_survey_witness :
  exists rs, fst (ratings_public no_faults sample_now (get_req "/api/ratings" (Some survey_a_upper) None)
                    ratings_world)
             = mkResponse 200 (RatingsBody rs) /\ newest_first rs /\
             rs = [rating_at 2 survey_a 30 (Some 7%nat); rating_at 0 survey_a 10 None].
Proof.
  destruct (ratings_list_by_survey no_faults sample_now (get_req "/api/ratings" (Some survey_a_upper) None)
              ratings_world survey_a_upper
              [18; 62; 69; 103; 232; 155; 18; 211; 164; 86; 66; 102; 20; 23; 64; 0]
              eq_refl eq_refl ltac:(vm_compute; reflexivity) eq_refl eq_refl)
    as [rs [Hp [_ [_ [Hs _]]]]].
  exists rs. rewrite Hp. split; [reflexivity | split; [exact Hs |]].
  vm_compute in Hp. injection Hp as <-. reflexivity.
Defined.

(** A GET without a [surveyId] query parameter, or with an empty one, is
    answered 400 ["surveyId query parameter is required"] by both handlers
    (the [/my] path included) before any query or authentication. *)
Theorem ratings_get_needs_survey fl now req w :
  method req = "GET" -> (query_surveyId req = None \/ query_surveyId req = Some "") ->
  ratings_public fl now req w = (mkResponse 400 (ErrBody "surveyId query parameter is required"), w) /\
  ratings_auth fl now req w = (mkResponse 400 (ErrBody "surveyId query parameter is required"), w).
Proof.
  intros Hm Hq. split.
  - rewrite (ratings_public_get fl now req w Hm). unfold run_handler, get_all.
    destruct Hq as [Hq | Hq]; rewrite Hq; reflexivity.
  - unfold ratings_auth, get_all. rewrite Hm.
    destruct (endsWith (pathname req) "/my"); destruct Hq as [Hq | Hq]; rewrite Hq; reflexivity.
Qed.

Lemma ratings_get_needs_survey_witness :
  ratings_auth no_faults sample_now (get_req "/api/ratings/my" None (Some ("Bearer " ++ token_valid)))
    ratings_world
  = (mkResponse 400 (ErrBody "surveyId query parameter is required"), ratings_world).
Proof.
  exact (proj2 (ratings_get_needs_survey no_faults sample_now
                  (get_req "/api/ratings/my" None (Some ("Bearer " ++ token_valid))) ratings_world
                  eq_refl (or_introl eq_refl))).
Defined.

Lemma ratings_auth_my fl now req w sid :
  method req = "GET" -> endsWith (pathname req) "/my" = true ->
  query_surveyId req = Some sid -> sid <> "" ->
  ratings_auth fl now req w =
  run_handler (
    a <- total (extractUser fl now (authorization req)) ;;
    match user a, dbUser a with
    | Some _, Some u =>
        my <- select_my_rating fl (Some sid) (id u) ;;
        ret (mkResponse 200 (MyRatingBody my))
    | _, _ => ret (mkResponse 200 (MyRatingBody None))
    end) w.
Proof.
  intros Hm He Hq Hs. unfold ratings_auth. rewrite Hm, He, Hq.
  destruct sid as [| c s]; [contradiction | reflexivity].
Qed.

(** [GET /api/ratings/my?surveyId=s] never refuses a request: when
    [extractUser] yields no user (no header, a malformed, undecodable or
    expired token, a store failure) the answer is 200 with a null rating
    and no ratings query; with a working ratings table the status is 200
    whatever the token. *)
Theorem my_rating_never_refuses fl now req w sid :
  method req = "GET" -> endsWith (pathname req) "/my" = true ->
  query_surveyId req = Some sid -> sid <> "" ->
  ((user (fst (extractUser fl now (authorization req) w)) = None \/
    dbUser (fst (extractUser fl now (authorization req) w)) = None) ->
   ratings_auth fl now req w =
     (mkResponse 200 (MyRatingBody None), snd (extractUser fl now (authorization req) w))) /\
  (ratings_fault fl = false -> status (fst (ratings_auth fl now req w)) = 200%Z).
Proof.
  intros Hm He Hq Hs. rewrite (ratings_auth_my fl now req w sid Hm He Hq Hs).
  split; unfold run_handler, bind at 1, total;
    destruct (extractUser fl now (authorization req) w) as [a w'].
  - simpl. intros [Hu | Hu]; rewrite Hu; [reflexivity | destruct (user a); reflexivity].
  - intros Hf. destruct (user a), (dbUser a); try reflexivity.
    unfold bind, select_my_rating. rewrite Hf. reflexivity.
Qed.

Lemma my_rating_never_refuses_witness :
  ratings_auth no_faults sample_now
    (get_req "/api/ratings/my" (Some survey_a) (Some ("Bearer " ++ token_expired))) empty_world
  = (mkResponse 200 (MyRatingBody None), empty_world).
Proof.
  refine (proj1 (my_rating_never_refuses no_faults sample_now
                   (get_req "/api/ratings/my" (Some survey_a) (Some ("Bearer " ++ token_expired)))
                   empty_world survey_a eq_refl eq_refl eq_refl _) _).
  - discriminate.
  - left. vm_compute. reflexivity.
Defined.








(** *** At most one rating per user and survey *)

Lemma same_key_true sid uid x :
  same_key sid uid x = true -> uuid_eq (survey_id x) sid = true /\ user_id x = Some uid.
Proof.
  unfold same_key. intros H. apply andb_true_iff in H as [H1 H2]. split; [exact H1 |].
  destruct (user_id x) as [v |]; [| discriminate]. apply Nat.eqb_eq in H2. subst. reflexivity.
Qed.

(** Two rows of one key belong to exactly the same keys. *)
Lemma same_key_rows sid uid x y :
  same_key sid uid x = true -> same_key sid uid y = true -> forall a b, same_key a b x = same_key a b y.
Proof.
  intros Hx Hy a b.
  destruct (same_key_true _ _ _ Hx) as [Sx Ux]. destruct (same_key_true _ _ _ Hy) as [Sy Uy].
  apply uuid_eq_spec in Sx as [s1 [k1 [E1 [K1 Hx1]]]]. apply uuid_eq_spec in Sy as [s2 [k2 [E2 [K2 Hy2]]]].
  rewrite E1 in E2. injection E2 as <-. rewrite K1 in K2. injection K2 as <-.
  unfold same_key. rewrite (uuid_eq_same_col _ _ k1 Hx1 Hy2 a), Ux, Uy. reflexivity.
Qed.

(** A key holding the same uuid as another counts the same rows. *)
Lemma count_key_same_uuid a sid uid l :
  uuid_eq sid a = true -> count_key a uid l = count_key sid uid l.
Proof.
  intros H. unfold count_key. f_equal. apply filter_ext. intros x.
  unfold same_key. rewrite (uuid_eq_same_key sid a H (survey_id x)). reflexivity.
Qed.

Lemma count_key_map a b f l :
  (forall x, same_key a b (f x) = same_key a b x) -> count_key a b (map f l) = count_key a b l.
Proof.
  intros H. unfold count_key. induction l as [| x l IH]; simpl; [reflexivity |].
  rewrite H. destruct (same_key a b x); simpl; rewrite IH; reflexivity.
Qed.

Lemma count_key_app a b l r :
  count_key a b (l ++ [r])%list = (count_key a b l + if same_key a b r then 1 else 0)%nat.
Proof.
  unfold count_key. rewrite filter_app, length_app. simpl.
  destruct (same_key a b r); reflexivity.
Qed.

Lemma count_key_none sid uid l : find (same_key sid uid) l = None -> count_key sid uid l = O.
Proof.
  unfold count_key. induction l as [| x l IH]; simpl; [reflexivity |].
  destruct (same_key sid uid x); [discriminate | exact IH].
Qed.

Lemma keeps_ret {A} (a : A) : keeps_unique (ret a).
Proof. intros w H. exact H. Qed.

Lemma keeps_lift {A} (x : exn + A) : keeps_unique (lift x).
Proof. intros w H. exact H. Qed.

Lemma keeps_bind {A B} (m : M A) (k : A -> M B) :
  keeps_unique m -> (forall a, keeps_unique (k a)) -> keeps_unique (bind m k).
Proof.
  intros Hm Hk w H. unfold bind. specialize (Hm w H).
  destruct (m w) as [[e | a] w1]; simpl in *; [exact Hm | exact (Hk a w1 Hm)].
Qed.

Lemma keeps_total_extractUser fl now hdr : keeps_unique (total (extractUser fl now hdr)).
Proof.
  intros w H. unfold total. destruct (extractUser_gate fl now hdr w) as [E _].
  destruct (extractUser fl now hdr w) as [a w']. simpl in *. rewrite E. exact H.
Qed.

Lemma keeps_total_requireAuth fl now hdr : keeps_unique (total (requireAuth fl now hdr)).
Proof.
  intros w H. unfold total. destruct (requireAuth_gate fl now hdr w) as [E _].
  destruct (requireAuth fl now hdr w) as [a w']. simpl in *. rewrite E. exact H.
Qed.

Lemma keeps_select_ratings fl sid : keeps_unique (select_ratings fl sid).
Proof. intros w H. unfold select_ratings. destruct (ratings_fault fl); exact H. Qed.

Lemma keeps_select_my_rating fl sid uid : keeps_unique (select_my_rating fl sid uid).
Proof. intros w H. unfold select_my_rating. destruct (ratings_fault fl); exact H. Qed.

Lemma keeps_insert_rating fl sid s ts : keeps_unique (insert_rating fl sid s ts).
Proof.
  intros w H. unfold insert_rating. destruct (ratings_fault fl); [exact H |].
  intros a b. cbn [snd ratings]. rewrite count_key_app.
  change (ratings (sent (InsertRating sid s ts) w)) with (ratings w).
  unfold same_key at 1. simpl. rewrite andb_false_r, Nat.add_0_r. apply H.
Qed.

Lemma keeps_upsert fl sid s ts uid : keeps_unique (upsert_rating fl sid s ts uid).
Proof.
  intros w H. unfold upsert_rating. destruct (ratings_fault fl); [exact H |]. cbv zeta.
  change (ratings (sent (UpsertRating sid s ts uid) w)) with (ratings w).
  destruct (find (same_key sid uid) (ratings w)) as [old |] eqn:Hfind.
  - intros a b. cbn [snd ratings]. rewrite count_key_map; [apply H |].
    intros x. destruct (same_key sid uid x) eqn:Ex; [| reflexivity].
    apply find_some in Hfind as [_ Ho].
    transitivity (same_key a b old); [reflexivity | exact (same_key_rows _ _ _ _ Ho Ex a b)].
  - intros a b. cbn [snd ratings]. rewrite count_key_app.
    destruct (same_key a b (mkRating (next_id (sent (UpsertRating sid s ts uid) w)) sid s ts (Some uid)))
      eqn:Er.
    + destruct (same_key_true _ _ _ Er) as [Sr Ur]. simpl in Sr, Ur. injection Ur as <-.
      rewrite (count_key_same_uuid a sid uid _ Sr), (count_key_none _ _ _ Hfind). lia.
    + rewrite Nat.add_0_r. apply H.
Qed.

Ltac keeps_step :=
  match goal with
  | |- keeps_unique (bind _ _) => apply keeps_bind; [| intro]
  | |- keeps_unique (ret _) => apply keeps_ret
  | |- keeps_unique (lift _) => apply keeps_lift
  | |- keeps_unique (respond _ _) => apply keeps_ret
  | |- keeps_unique (total (extractUser _ _ _)) => apply keeps_total_extractUser
  | |- keeps_unique (total (requireAuth _ _ _)) => apply keeps_total_requireAuth
  | |- keeps_unique (read_body _) => unfold read_body
  | |- keeps_unique (select_ratings _ _) => apply keeps_select_ratings
  | |- keeps_unique (select_my_rating _ _ _) => apply keeps_select_my_rating
  | |- keeps_unique (upsert_rating _ _ _ _ _) => apply keeps_upsert
  | |- keeps_unique (insert_rating _ _ _ _) => apply keeps_insert_rating
  | |- keeps_unique (get_all _ _) => unfold get_all
  | |- keeps_unique (if ?b then _ else _) => destruct b
  | |- keeps_unique (match ?x with _ => _ end) => destruct x
  end.

Lemma run_handler_keeps (m : M Response) w :
  keeps_unique m -> unique_keys (ratings w) -> unique_keys (ratings (snd (run_handler m w))).
Proof.
  intros Km Hw. unfold run_handler. specialize (Km w Hw). destruct (m w) as [[e | r] w']; exact Km.
Qed.

(** Neither ratings handler ever stores a second rating for the same user
    and survey: whatever the request (method, token, body, store faults),
    if the table has at most one row per [(survey_id, user_id)] with a
    non-null [user_id] before, it has after. Anonymous rows of the public
    handler have a null [user_id] and are not counted. *)
Theorem ratings_unique_per_user fl now req w :
  unique_keys (ratings w) ->
  unique_keys (ratings (snd (ratings_auth fl now req w))) /\
  unique_keys (ratings (snd (ratings_public fl now req w))).
Proof.
  intros H. split.
  - unfold ratings_auth. destruct (String.eqb (method req) "OPTIONS"); [exact H |].
    apply run_handler_keeps; [repeat keeps_step | exact H].
  - unfold ratings_public. destruct (String.eqb (method req) "OPTIONS"); [exact H |].
    apply run_handler_keeps; [repeat keeps_step | exact H].
Qed.

Lemma ratings_unique_per_user_witness :
  unique_keys (ratings (snd (ratings_auth no_faults sample_now
                               (post (Some ("Bearer " ++ token_valid)) (body_with_score "5"))
                               empty_world))).
Proof.
  refine (proj1 (ratings_unique_per_user no_faults sample_now
                   (post (Some ("Bearer " ++ token_valid)) (body_with_score "5")) empty_world _)).
  intros a b. unfold count_key. simpl. lia.
Defined.

(** *** Input errors of [ratings.ts] *)

(** In [ratings.ts], a POST whose body is not JSON, or is [null], gets 500
    ["Internal server error"]; a body that is another non-object (number,
    string, boolean, array) or an object whose [surveyId] is falsy gets 400
    ["surveyId is required"], as long as its [score] converts without
    throwing; a [score] whose conversion throws (an object with an own
    [toString] key) gets 500. In none of these cases is a query sent. *)
Theorem public_post_input_errors fl now req w :
  method req = "POST" ->
  (Json.parse (list_ascii_of_string (body_text req)) = None \/
   Json.parse (list_ascii_of_string (body_text req)) = Some JNull ->
   ratings_public fl now req w = (mkResponse 500 (ErrBody "Internal server error"), w)) /\
  (forall j, Json.parse (list_ascii_of_string (body_text req)) = Some j ->
   j <> JNull -> (forall kv, j <> JObj kv) ->
   ratings_public fl now req w = (mkResponse 400 (ErrBody "surveyId is required"), w)) /\
  (forall kv n, Json.parse (list_ascii_of_string (body_text req)) = Some (JObj kv) ->
   to_number (own kv "score") = inr n -> truthy (own kv "surveyId") = false ->
   ratings_public fl now req w = (mkResponse 400 (ErrBody "surveyId is required"), w)) /\
  (forall kv e, Json.parse (list_ascii_of_string (body_text req)) = Some (JObj kv) ->
   to_number (own kv "score") = inl e ->
   ratings_public fl now req w = (mkResponse 500 (ErrBody "Internal server error"), w)).
Proof.
  intros Hm. rewrite (ratings_public_post fl now req w Hm).
  split; [| split; [| split]].
  - intros [Hp | Hp]; unfold run_handler, read_body, bind, lift, parse_or_throw; rewrite Hp;
      reflexivity.
  - intros j Hp Hn Ho. unfold run_handler, read_body, bind, lift, parse_or_throw. rewrite Hp.
    destruct j as [| b | q | s0 | l | kv]; try reflexivity; [contradiction | exfalso; exact (Ho kv eq_refl)].
  - intros kv n Hp Hn Ht. unfold run_handler, bind at 1.
    rewrite (read_body_obj req kv n w Hp Hn). cbv beta iota. rewrite Ht. reflexivity.
  - intros kv e Hp Hn. unfold run_handler, read_body, bind, lift, parse_or_throw. rewrite Hp.
    unfold get. cbv beta iota. rewrite Hn. reflexivity.
Qed.

Lemma public_post_input_errors_witness :
  ratings_public no_faults sample_now (post None "[1,2]") empty_world
  = (mkResponse 400 (ErrBody "surveyId is required"), empty_world).
Proof.
  refine (proj1 (proj2 (public_post_input_errors no_faults sample_now (post None "[1,2]")
                          empty_world eq_refl)) (JArr [JNum (inject_Z 1); JNum (inject_Z 2)]) _ _ _).
  - vm_compute. reflexivity.
  - discriminate.
  - intros kv. discriminate.
Defined.



End RatingsExtras.

(* ================================================================= *)
(** ** Properties of the Netlify Blobs handler *)

Module BlobsExtras.
Import Json JsValue Http Blobs Samples.
Local Open Scope string_scope.





(** Whatever the request and the store failures, the handler either leaves
    the store as it was or performs exactly one write, of an array of at
    most [MAX_RATINGS] entries that becomes the stored value: the store
    never grows past 100 ratings, and is never left holding a non-array
    written by the handler. *)
Theorem blobs_store_effect fl uuid now req s :
  snd (blobs_handler fl uuid now req s) = s \/
  exists l, (length l <= MAX_RATINGS)%nat /\
    snd (blobs_handler fl uuid now req s) = mkBStore (Some (JArr l)) (b_writes s ++ [JArr l]).
Proof.
  unfold blobs_handler, bbind, blift, bret, getRatings, saveRatings, unshift.
  destruct (String.eqb (method req) "OPTIONS"); [left; reflexivity |]. cbv zeta.
  repeat (match goal with
          | |- context [if ?b then _ else _] => destruct b
          | |- context [match ?x with inl _ => _ | inr _ => _ end] => destruct x
          | |- context [match ?x with Some _ => _ | None => _ end] => destruct x
          | |- context [match ?x with JNull => _ | _ => _ end] => destruct x
          end; cbn beta iota zeta).
  all: first [left; reflexivity
             | right; eexists; split; [| reflexivity]; rewrite length_firstn; apply Nat.le_min_l].
Qed.





End BlobsExtras.

(* ================================================================= *)
(** ** Properties of [/api/me] *)

Module MeExtras.
Import Json JsValue Db Http Auth Handlers Invariants Samples Me AuthFacts GateExtras.
Local Open Scope string_scope.

Lemma me_get_eq fl now req w :
  method req = "GET" ->
  me fl now req w =
  (let (g, w') := requireAuth fl now (authorization req) w in
   (mkMeResponse 200 (match errorResponse g, dbUser (auth g) with
                      | None, Some u => MeUser (id u) (email u) (role u)
                      | _, _ => MeAnonymous
                      end), w')).
Proof.
  intros Hm. unfold me. rewrite Hm. cbn -[extractUser requireAuth].
  unfold bind, total, requireAuth.
  destruct (extractUser fl now (authorization req) w) as [a w'].
  destruct (user a), (dbUser a) eqn:Hd; cbn [auth errorResponse]; rewrite ?Hd; reflexivity.
Qed.

(** [/api/me] never answers 500 and never touches the ratings table: on
    OPTIONS it answers 204 and on a method other than GET 405, both
    without a query; on GET it answers 200, and the only queries it sends
    are the user lookup and the first-login insert of [extractUser]. *)
Theorem me_never_fails fl now req w :
  gate_step w (snd (me fl now req w)) /\
  (method req = "OPTIONS" -> me fl now req w = (mkMeResponse 204 MeNoBody, w)) /\
  (method req <> "OPTIONS" -> method req <> "GET" ->
   me fl now req w = (mkMeResponse 405 (MeError "Method not allowed"), w)) /\
  (method req = "GET" -> me_status (fst (me fl now req w)) = 200).
Proof.
  split; [| split; [| split]].
  - destruct (String.eqb (method req) "GET") eqn:E.
    + apply String.eqb_eq in E. rewrite (me_get_eq fl now req w E).
      pose proof (requireAuth_gate fl now (authorization req) w) as G.
      destruct (requireAuth fl now (authorization req) w) as [g w']. exact G.
    + unfold me. rewrite E. destruct (String.eqb (method req) "OPTIONS"); apply gate_step_refl.
  - intros Hm. unfold me. rewrite Hm. reflexivity.
  - intros H1 H2. unfold me. apply String.eqb_neq in H1, H2. rewrite H1, H2. reflexivity.
  - intros Hm. rewrite (me_get_eq fl now req w Hm).
    destruct (requireAuth fl now (authorization req) w) as [g w']. reflexivity.
Qed.

(** What [/api/me] reports agrees with the gates of the write endpoints
    for the same request: it reports a user exactly when [requireAuth]
    lets the request through, reports the role ["admin"] exactly when
    [requireAdmin] lets it through, and leaves the store as [requireAuth]
    would. *)
Theorem me_agrees_with_gates fl now req w :
  method req = "GET" ->
  snd (me fl now req w) = snd (requireAuth fl now (authorization req) w) /\
  ((exists i e r, me_body (fst (me fl now req w)) = MeUser i e r) <->
   errorResponse (fst (requireAuth fl now (authorization req) w)) = None) /\
  ((exists i e, me_body (fst (me fl now req w)) = MeUser i e "admin") <->
   errorResponse (fst (requireAdmin fl now (authorization req) w)) = None).
Proof.
  intros Hm. rewrite (me_get_eq fl now req w Hm). unfold requireAdmin, requireAuth.
  destruct (extractUser fl now (authorization req) w) as [a w1].
  destruct (user a), (dbUser a) as [u |] eqn:Hd; cbn [fst snd errorResponse auth me_body];
    rewrite ?Hd; (split; [reflexivity |]).
  1: { split; split.
    + intros _. reflexivity.
    + intros _. eauto.
    + intros [i [e Heq]]. injection Heq as _ _ Hr. rewrite Hr. reflexivity.
    + destruct (String.eqb (role u) "admin") eqn:Er; [| discriminate].
      apply String.eqb_eq in Er. intros _. exists (id u), (email u). rewrite Er. reflexivity. }
  all: split; split; try (intros [i [e [r Heq]]]; discriminate); try (intros [i [e Heq]]; discriminate);
      discriminate.
Qed.

Lemma me_agrees_with_gates_witness :
  me_body (fst (me no_faults sample_now
                  (MoreSamples.get_req "/api/me" None (Some ("Bearer " ++ token_valid))) admin_world))
  = MeUser O (Some "a@b.c") "admin" /\
  errorResponse (fst (requireAdmin no_faults sample_now (Some ("Bearer " ++ token_valid)) admin_world))
  = None.
Proof.
  split; [vm_compute; reflexivity |].
  apply (proj1 (proj2 (proj2 (me_agrees_with_gates no_faults sample_now
                  (MoreSamples.get_req "/api/me" None (Some ("Bearer " ++ token_valid))) admin_world
                  eq_refl)))).
  exists O, (Some "a@b.c"). vm_compute. reflexivity.
Defined.



End MeExtras.

(* ================================================================= *)
(** ** Properties of the surveys handler *)

Module SurveysExtras.
Import Json JsValue Db Http Auth Uuid Invariants Samples Surveys SurveySamples AuthFacts GateExtras.
Local Open Scope string_scope.

Lemma srun_eq m s :
  srun m s = match m s with
             | (inl _, s') => (mkSResponse 500 (SError "Internal server error"), s')
             | (inr r, s') => (r, s')
             end.
Proof. reflexivity. Qed.

Lemma admin_run fl now hdr s :
  admin fl now hdr s =
  (inr (fst (requireAdmin fl now hdr (db s))),
   mkSWorld (snd (requireAdmin fl now hdr (db s))) (surveys s) (s_log s)).
Proof. unfold admin. destruct (requireAdmin fl now hdr (db s)); reflexivity. Qed.

Lemma requireAdmin_gate fl now hdr w : gate_step w (snd (requireAdmin fl now hdr w)).
Proof.
  unfold requireAdmin. pose proof (requireAuth_gate fl now hdr w) as G.
  destruct (requireAuth fl now hdr w) as [g w']. cbv zeta.
  destruct (errorResponse g); [exact G |].
  destruct (match dbUser (auth g) with Some u => String.eqb (role u) "admin" | None => false end);
    exact G.
Qed.

Lemma handler_create fl sfl now uuid req s :
  method req = "POST" -> surveys_handler fl sfl now uuid req s = srun (create fl sfl now uuid req) s.
Proof.
  intros Hm. unfold surveys_handler. rewrite Hm. cbv zeta.
  destruct (is_valid_id (pathname req)); reflexivity.
Qed.

Lemma handler_get_one fl sfl now uuid req s x :
  method req = "GET" -> survey_id_of (pathname req) = Some x -> id_pattern x = true ->
  surveys_handler fl sfl now uuid req s = srun (get_one sfl x) s.
Proof.
  intros Hm Hs Hv. unfold surveys_handler, is_valid_id. rewrite Hm, Hs. cbv beta iota zeta.
  rewrite Hv. reflexivity.
Qed.

Lemma handler_put_one fl sfl now uuid req s x :
  method req = "PUT" -> survey_id_of (pathname req) = Some x -> id_pattern x = true ->
  surveys_handler fl sfl now uuid req s = srun (put_one fl sfl now req x) s.
Proof.
  intros Hm Hs Hv. unfold surveys_handler, is_valid_id. rewrite Hm, Hs. cbv beta iota zeta.
  rewrite Hv. reflexivity.
Qed.

Lemma handler_delete_one fl sfl now uuid req s x :
  method req = "DELETE" -> survey_id_of (pathname req) = Some x -> id_pattern x = true ->
  surveys_handler fl sfl now uuid req s = srun (delete_one fl sfl now req x) s.
Proof.
  intros Hm Hs Hv. unfold surveys_handler, is_valid_id. rewrite Hm, Hs. cbv beta iota zeta.
  rewrite Hv. reflexivity.
Qed.

Lemma handler_no_id fl sfl now uuid req s :
  method req <> "OPTIONS" -> is_valid_id (pathname req) = false ->
  surveys_handler fl sfl now uuid req s =
  srun (if String.eqb (method req) "GET" then get_list sfl
        else if String.eqb (method req) "POST" then create fl sfl now uuid req
        else srespond 405 "Method not allowed") s.
Proof.
  intros Ho Hv. unfold surveys_handler. apply String.eqb_neq in Ho. rewrite Ho, Hv. reflexivity.
Qed.

Lemma string_of_list_ascii_empty l : string_of_list_ascii l = "" -> l = [].
Proof. destruct l; [reflexivity | discriminate]. Qed.

Lemma same_uuid_some x k : same_uuid (Some x) k = true -> uuid_in x = Some k.
Proof.
  unfold same_uuid. destruct (uuid_in x) as [k' |]; [| discriminate].
  destruct (list_eq_dec Z.eq_dec k' k); [congruence | discriminate].
Qed.

Lemma find_map_same {A} (p : A -> bool) (f : A -> A) l :
  (forall x, p (f x) = p x) -> find p (map f l) = option_map f (find p l).
Proof.
  intros H. induction l as [| x l IH]; simpl; [reflexivity |].
  rewrite H. destruct (p x); [reflexivity | exact IH].
Qed.

Lemma map_no_hit {A} (p : A -> bool) (f : A -> A) l :
  find p l = None -> map (fun x => if p x then f x else x) l = l.
Proof.
  induction l as [| x l IH]; simpl; [reflexivity |].
  destruct (p x); [discriminate | intros H; rewrite (IH H); reflexivity].
Qed.

Ltac sdestr :=
  repeat (match goal with
          | |- context [if ?b then _ else _] => destruct b
          | |- context [match ?x with inl _ => _ | inr _ => _ end] => destruct x
          | |- context [match ?x with Some _ => _ | None => _ end] => destruct x
          end; cbn beta iota zeta).

(** A request that [requireAdmin] refuses changes no survey and no rating,
    whatever its method, path and body and whether the survey queries
    fail: PUT, DELETE and POST answer with the refusal (or 405 when PUT or
    DELETE carry no valid id) before any survey query, GET only reads; the
    database sees at most the user lookup and the first-login insert. *)
Theorem surveys_non_admin_read_only fl sfl now uuid req s :
  errorResponse (fst (requireAdmin fl now (authorization req) (db s))) <> None ->
  surveys (snd (surveys_handler fl sfl now uuid req s)) = surveys s /\
  gate_step (db s) (db (snd (surveys_handler fl sfl now uuid req s))).
Proof.
  intros Hr.
  assert (Adm : forall (k : Guarded -> SM SResponse),
            (forall g, errorResponse g <> None -> exists r, k g = sret r) ->
            surveys (snd (srun (sbind (admin fl now (authorization req)) k) s)) = surveys s /\
            gate_step (db s) (db (snd (srun (sbind (admin fl now (authorization req)) k) s)))).
  { intros k Hk. rewrite srun_eq. unfold sbind. rewrite admin_run. cbv beta iota.
    destruct (Hk _ Hr) as [r ->]. split; [reflexivity | apply requireAdmin_gate]. }
  assert (Kg : forall g (a : SM SResponse), errorResponse g <> None ->
            exists r, match errorResponse g with Some r => sret (of_guard r) | None => a end = sret r).
  { intros g a H. destruct (errorResponse g) as [r |]; [eexists; reflexivity | contradiction]. }
  unfold surveys_handler.
  destruct (String.eqb (method req) "OPTIONS"); [split; [reflexivity | apply gate_step_refl] |].
  cbv zeta.
  destruct (is_valid_id (pathname req) && String.eqb (method req) "GET").
  { rewrite srun_eq. unfold get_one, sbind, select_survey, srespond, sret.
    split; sdestr; first [reflexivity | apply gate_step_refl]. }
  destruct (is_valid_id (pathname req) && String.eqb (method req) "PUT").
  { apply Adm. intros g H. cbv beta. apply Kg. exact H. }
  destruct (is_valid_id (pathname req) && String.eqb (method req) "DELETE").
  { apply Adm. intros g H. cbv beta. apply Kg. exact H. }
  destruct (String.eqb (method req) "GET").
  { rewrite srun_eq. unfold get_list, sbind, list_surveys, sret.
    split; sdestr; first [reflexivity | apply gate_step_refl]. }
  destruct (String.eqb (method req) "POST").
  { apply Adm. intros g H. cbv beta. apply Kg. exact H. }
  split; [reflexivity | apply gate_step_refl].
Qed.

Lemma surveys_non_admin_read_only_witness :
  surveys (snd (surveys_handler no_faults false sample_now "u9"
                  (sreq "DELETE" ("/api/surveys/" ++ uuid1) None "") survey_world))
  = surveys survey_world.
Proof.
  apply (proj1 (surveys_non_admin_read_only no_faults false sample_now "u9"
                  (sreq "DELETE" ("/api/surveys/" ++ uuid1) None "") survey_world ltac:(discriminate))).
Defined.

(** An admin POST (to [/api/surveys] or to any other path) whose JSON
    body has a string description that is not blank creates one survey
    with the trimmed description, the new id and [now()], and answers 201
    with zero ratings and a null average; a missing, [null] or blank
    description gets 400 and a description of another type 500, both
    without creating anything. *)
Theorem surveys_create_description fl sfl now uuid req s kv :
  method req = "POST" ->
  errorResponse (fst (requireAdmin fl now (authorization req) (db s))) = None ->
  Json.parse (list_ascii_of_string (body_text req)) = Some (JObj kv) ->
  (forall d, own kv "description" = Some (JStr d) ->
     js_trim (list_ascii_of_string d) <> [] -> sfl = false ->
     surveys_handler fl sfl now uuid req s =
       (mkSResponse 201 (SOne (mkView uuid (string_of_list_ascii (js_trim (list_ascii_of_string d)))
                                     now O None)),
        mkSWorld (snd (requireAdmin fl now (authorization req) (db s)))
                 (surveys s ++ [mkSurvey uuid (string_of_list_ascii (js_trim (list_ascii_of_string d))) now])
                 (s_log s ++ [InsertSurvey (string_of_list_ascii (js_trim (list_ascii_of_string d)))]))) /\
  ((own kv "description" = None \/ own kv "description" = Some JNull \/
    exists d, own kv "description" = Some (JStr d) /\ js_trim (list_ascii_of_string d) = []) ->
   surveys_handler fl sfl now uuid req s =
     (mkSResponse 400 (SError "Description is required"),
      mkSWorld (snd (requireAdmin fl now (authorization req) (db s))) (surveys s) (s_log s))) /\
  (forall j, own kv "description" = Some j -> j <> JNull -> (forall d, j <> JStr d) ->
   surveys_handler fl sfl now uuid req s =
     (mkSResponse 500 (SError "Internal server error"),
      mkSWorld (snd (requireAdmin fl now (authorization req) (db s))) (surveys s) (s_log s))).
Proof.
  intros Hm Ha Hp. rewrite (handler_create fl sfl now uuid req s Hm), srun_eq.
  unfold create, sbind, slift. rewrite admin_run. cbv beta iota. rewrite Ha.
  unfold parse_or_throw. rewrite Hp. cbv beta iota. unfold read_description, get.
  split; [| split].
  - intros d Hd Ht Hf. rewrite Hd.
    destruct (string_of_list_ascii (js_trim (list_ascii_of_string d))) as [| c r] eqn:E.
    + exfalso. exact (Ht (string_of_list_ascii_empty _ E)).
    + unfold insert_survey, sret. rewrite Hf. reflexivity.
  - intros [H | [H | [d [Hd Ht]]]]; rewrite ?H; [reflexivity | reflexivity |].
    rewrite Hd, Ht. reflexivity.
  - intros j Hj Hn Hs. rewrite Hj.
    destruct j as [| b | q | d | l | kv']; try reflexivity; [contradiction | exfalso; exact (Hs d eq_refl)].
Qed.

Lemma surveys_create_description_witness :
  surveys_handler no_faults false sample_now "u9"
    (sreq "POST" "/api/surveys" admin_auth (desc_body "  Hawaii  ")) survey_world =
  (mkSResponse 201 (SOne (mkView "u9" "Hawaii" sample_now O None)),
   mkSWorld (mkWorld [admin_row] (Db.ratings (db survey_world)) 3 [SelectUser (Some "abc")])
            (surveys survey_world ++ [mkSurvey "u9" "Hawaii" sample_now])
            [InsertSurvey "Hawaii"]).
Proof.
  refine (proj1 (surveys_create_description no_faults false sample_now "u9"
                   (sreq "POST" "/api/surveys" admin_auth (desc_body "  Hawaii  ")) survey_world
                   [("description", JStr "  Hawaii  ")] eq_refl _ _) "  Hawaii  " eq_refl _ eq_refl).
  - vm_compute. reflexivity.
  - vm_compute. reflexivity.
  - vm_compute. discriminate.
Defined.

(** An admin DELETE of a valid id first deletes every rating of that
    survey, then the survey; it answers 200 [{ success: true }] when a
    survey was deleted and 404 otherwise, and in the 404 case the ratings
    that referred to the id are gone all the same. Ratings of other
    surveys and anonymous ratings without a survey stay. *)
Theorem surveys_delete fl now uuid req s x k :
  method req = "DELETE" -> survey_id_of (pathname req) = Some x -> id_pattern x = true ->
  uuid_in x = Some k ->
  errorResponse (fst (requireAdmin fl now (authorization req) (db s))) = None ->
  surveys_handler fl false now uuid req s =
    (match find (hit k) (surveys s) with
     | Some _ => mkSResponse 200 SSuccess
     | None => mkSResponse 404 (SError "Survey not found")
     end,
     mkSWorld (with_ratings (snd (requireAdmin fl now (authorization req) (db s)))
                 (filter (fun r => negb (same_uuid (survey_id r) k)) (Db.ratings (db s))))
              (filter (fun sv => negb (hit k sv)) (surveys s))
              (s_log s ++ [DeleteRatingsOf x; DeleteSurvey x])).
Proof.
  intros Hm Hs Hv Hk Ha. rewrite (handler_delete_one fl false now uuid req s x Hm Hs Hv), srun_eq.
  unfold delete_one, sbind at 1. rewrite admin_run. cbv beta iota. rewrite Ha.
  destruct (requireAdmin_gate fl now (authorization req) (db s)) as [Er _].
  unfold sbind, delete_ratings_of, delete_survey, cast_uuid. rewrite Hk. cbn.
  rewrite Er, <- app_assoc. simpl.
  destruct (find (hit k) (surveys s)); reflexivity.
Qed.

Lemma surveys_delete_witness :
  surveys_handler no_faults false sample_now "u9"
    (sreq "DELETE" ("/api/surveys/" ++ uuid1) admin_auth "") survey_world =
  (mkSResponse 200 SSuccess,
   mkSWorld (mkWorld [admin_row] [mkRating 2 (Some uuid2) (JsValue.Fin 3) 30 None] 3
                     [SelectUser (Some "abc")])
            [mkSurvey uuid2 "Pepperoni" 200]
            [DeleteRatingsOf uuid1; DeleteSurvey uuid1]).
Proof.
  rewrite (surveys_delete no_faults sample_now "u9"
             (sreq "DELETE" ("/api/surveys/" ++ uuid1) admin_auth "") survey_world uuid1
             [18; 62; 69; 103; 232; 155; 18; 211; 164; 86; 66; 102; 20; 23; 64; 0]
             eq_refl eq_refl eq_refl eq_refl ltac:(vm_compute; reflexivity)).
  vm_compute. reflexivity.
Defined.

(** Routing: a GET whose id segment passes the [a-f0-9-] test but is not
    a uuid fails with 500 (the cast throws) rather than 404; a GET whose
    path has no valid id (not three segments, or other characters) lists
    all surveys, newest first, with their statistics; a PUT or DELETE
    without a valid id, and any method other than GET, POST, PUT, DELETE
    and OPTIONS, gets 405 without any query and without authentication. *)
Theorem surveys_routing fl sfl now uuid req s :
  (forall x, method req = "GET" -> survey_id_of (pathname req) = Some x -> id_pattern x = true ->
   uuid_in x = None ->
   surveys_handler fl sfl now uuid req s =
     (mkSResponse 500 (SError "Internal server error"), slog (SelectSurvey x) s)) /\
  (method req = "GET" -> is_valid_id (pathname req) = false -> sfl = false ->
   surveys_handler fl sfl now uuid req s =
     (mkSResponse 200 (SList (map (stats (Db.ratings (db s))) (sort_created (surveys s)))),
      slog ListSurveys s)) /\
  (method req <> "OPTIONS" -> method req <> "GET" -> method req <> "POST" ->
   (is_valid_id (pathname req) = false \/ (method req <> "PUT" /\ method req <> "DELETE")) ->
   surveys_handler fl sfl now uuid req s = (mkSResponse 405 (SError "Method not allowed"), s)).
Proof.
  split; [| split].
  - intros x Hm Hs Hv Hu. rewrite (handler_get_one fl sfl now uuid req s x Hm Hs Hv), srun_eq.
    unfold get_one, sbind, select_survey, cast_uuid. rewrite Hu.
    destruct sfl; reflexivity.
  - intros Hm Hv Hf. rewrite (handler_no_id fl sfl now uuid req s ltac:(rewrite Hm; discriminate) Hv).
    rewrite Hm. unfold get_list, sbind, list_surveys. rewrite Hf. reflexivity.
  - intros H1 H2 H3 H4. unfold surveys_handler.
    apply String.eqb_neq in H1, H2, H3. rewrite H1, H2, H3. cbv zeta.
    destruct H4 as [Hv | [H5 H6]].
    + rewrite Hv. reflexivity.
    + apply String.eqb_neq in H5, H6. rewrite H5, H6.
      destruct (is_valid_id (pathname req)); reflexivity.
Qed.

Lemma surveys_routing_witness :
  surveys_handler no_faults false sample_now "u9" (sreq "GET" "/api/surveys/abc" None "") survey_world
  = (mkSResponse 500 (SError "Internal server error"), slog (SelectSurvey "abc") survey_world).
Proof.
  apply (proj1 (surveys_routing no_faults false sample_now "u9" (sreq "GET" "/api/surveys/abc" None "")
                  survey_world) "abc"); reflexivity.
Defined.

(** [GET /api/surveys/:id] finds the survey whatever the case and hyphen
    layout of the id, answers 404 when there is none, and its statistics
    count exactly the ratings whose survey is that uuid; the average is
    [null] exactly when there are none. *)
Theorem surveys_get_one_stats fl now uuid req s x k :
  method req = "GET" -> survey_id_of (pathname req) = Some x -> id_pattern x = true ->
  uuid_in x = Some k ->
  surveys_handler fl false now uuid req s =
    (match find (hit k) (surveys s) with
     | Some sv => mkSResponse 200 (SOne (stats (Db.ratings (db s)) sv))
     | None => mkSResponse 404 (SError "Survey not found")
     end, slog (SelectSurvey x) s) /\
  (forall sv, hit k sv = true ->
   rating_count (stats (Db.ratings (db s)) sv) =
     length (filter (fun r => same_uuid (survey_id r) k) (Db.ratings (db s))) /\
   (average_score (stats (Db.ratings (db s)) sv) = None <->
    rating_count (stats (Db.ratings (db s)) sv) = O)).
Proof.
  intros Hm Hs Hv Hk. split.
  - rewrite (handler_get_one fl false now uuid req s x Hm Hs Hv), srun_eq.
    unfold get_one, sbind, select_survey, cast_uuid. rewrite Hk. cbn.
    destruct (find (hit k) (surveys s)); reflexivity.
  - intros sv Hh. unfold hit in Hh. apply same_uuid_some in Hh.
    unfold stats. rewrite Hh. cbn [rating_count average_score]. split; [reflexivity |].
    destruct (filter _ _); simpl; split; (discriminate || reflexivity).
Qed.

Lemma surveys_get_one_stats_witness :
  surveys_handler no_faults false sample_now "u9"
    (sreq "GET" ("/api/surveys/" ++ uuid1_upper) None "") survey_world =
  (mkSResponse 200 (SOne (mkView uuid1 "Margherita" 100 2 (Some (14 # 2)))),
   slog (SelectSurvey uuid1_upper) survey_world).
Proof.
  rewrite (proj1 (surveys_get_one_stats no_faults sample_now "u9"
                    (sreq "GET" ("/api/surveys/" ++ uuid1_upper) None "") survey_world uuid1_upper
                    [18; 62; 69; 103; 232; 155; 18; 211; 164; 86; 66; 102; 20; 23; 64; 0]
                    eq_refl eq_refl eq_refl eq_refl)).
  vm_compute. reflexivity.
Defined.

(** An admin PUT of a valid id with a non-blank string description sets
    the trimmed description on the survey (its id and creation time kept)
    and answers 200 with the updated row and its statistics; when no
    survey has the id it answers 404 and changes nothing. *)
Theorem surveys_update fl now uuid req s x k kv d :
  method req = "PUT" -> survey_id_of (pathname req) = Some x -> id_pattern x = true ->
  uuid_in x = Some k ->
  errorResponse (fst (requireAdmin fl now (authorization req) (db s))) = None ->
  Json.parse (list_ascii_of_string (body_text req)) = Some (JObj kv) ->
  own kv "description" = Some (JStr d) -> js_trim (list_ascii_of_string d) <> [] ->
  surveys_handler fl false now uuid req s =
    match find (hit k) (surveys s) with
    | Some sv =>
        (mkSResponse 200 (SOne (stats (Db.ratings (db s))
           (mkSurvey (s_id sv) (string_of_list_ascii (js_trim (list_ascii_of_string d))) (s_created_at sv)))),
         mkSWorld (snd (requireAdmin fl now (authorization req) (db s)))
           (map (fun sv => if hit k sv
                           then mkSurvey (s_id sv) (string_of_list_ascii (js_trim (list_ascii_of_string d)))
                                         (s_created_at sv)
                           else sv) (surveys s))
           (s_log s ++ [UpdateSurvey x (string_of_list_ascii (js_trim (list_ascii_of_string d)));
                        SelectSurvey x]))
    | None =>
        (mkSResponse 404 (SError "Survey not found"),
         mkSWorld (snd (requireAdmin fl now (authorization req) (db s))) (surveys s)
           (s_log s ++ [UpdateSurvey x (string_of_list_ascii (js_trim (list_ascii_of_string d)))]))
    end.
Proof.
  intros Hm Hs Hv Hk Ha Hp Hd Ht.
  rewrite (handler_put_one fl false now uuid req s x Hm Hs Hv), srun_eq.
  unfold put_one, sbind at 1. rewrite admin_run. cbv beta iota. rewrite Ha.
  unfold sbind at 1, slift at 1, parse_or_throw. rewrite Hp.
  unfold sbind at 1, slift at 1, read_description, get. rewrite Hd.
  destruct (requireAdmin_gate fl now (authorization req) (db s)) as [Er _].
  set (t := string_of_list_ascii (js_trim (list_ascii_of_string d))).
  destruct t as [| c r] eqn:E.
  { exfalso. exact (Ht (string_of_list_ascii_empty _ E)). }
  rewrite <- E. clear E.
  set (upd := fun sv => if hit k sv then mkSurvey (s_id sv) t (s_created_at sv) else sv).
  assert (Hfm : find (hit k) (map upd (surveys s)) = option_map upd (find (hit k) (surveys s))).
  { apply find_map_same. intros sv. unfold upd. destruct (hit k sv) eqn:E; [| exact E].
    unfold hit at 1. simpl. exact E. }
  unfold sbind, update_survey, select_survey, cast_uuid. rewrite Hk.
  cbv beta iota zeta. cbn [slog surveys db s_log]. fold upd.
  rewrite Hfm. destruct (find (hit k) (surveys s)) as [sv |] eqn:Hf; cbn [option_map].
  - pose proof (proj2 (find_some _ _ Hf)) as Hh. cbn [surveys db s_log slog].
    rewrite Hfm. cbn [option_map].
    replace (upd sv) with (mkSurvey (s_id sv) t (s_created_at sv))
      by (unfold upd; rewrite Hh; reflexivity).
    unfold sret, slog. rewrite Er. cbn [db surveys s_log]. rewrite <- app_assoc. reflexivity.
  - unfold upd. rewrite (map_no_hit (hit k) (fun sv => mkSurvey (s_id sv) t (s_created_at sv)) _ Hf).
    reflexivity.
Qed.

Lemma surveys_update_witness :
  fst (surveys_handler no_faults false sample_now "u9"
         (sreq "PUT" ("/api/surveys/" ++ uuid2) admin_auth (desc_body " Diavola")) survey_world) =
  mkSResponse 200 (SOne (mkView uuid2 "Diavola" 200 1 (Some (3 # 1)))).
Proof.
  rewrite (surveys_update no_faults sample_now "u9"
             (sreq "PUT" ("/api/surveys/" ++ uuid2) admin_auth (desc_body " Diavola")) survey_world uuid2
             [0; 0; 0; 0; 0; 0; 0; 0; 0; 0; 0; 0; 0; 0; 0; 162] [("description", JStr " Diavola")]
             " Diavola" eq_refl eq_refl eq_refl eq_refl ltac:(vm_compute; reflexivity)
             ltac:(vm_compute; reflexivity) eq_refl ltac:(vm_compute; discriminate)).
  vm_compute. reflexivity.
Defined.

Lemma insert_created_in r l x : In x (insert_created r l) <-> In x (r :: l).
Proof.
  induction l as [| y l IH]; simpl; [reflexivity |].
  destruct (Z.leb (s_created_at y) (s_created_at r)); [reflexivity |]. simpl. rewrite IH. simpl. tauto.
Qed.

Lemma sort_created_in l x : In x (sort_created l) <-> In x l.
Proof.
  induction l as [| y l IH]; simpl; [reflexivity |].
  rewrite insert_created_in. simpl. rewrite IH. reflexivity.
Qed.

Lemma sort_created_length l : length (sort_created l) = length l.
Proof.
  induction l as [| y l IH]; simpl; [reflexivity |]. rewrite <- IH. clear IH.
  induction (sort_created l) as [| z m IHm]; simpl; [reflexivity |].
  destruct (Z.leb (s_created_at z) (s_created_at y)); simpl; [reflexivity | rewrite IHm; reflexivity].
Qed.

Definition created_desc (a b : Survey) : Prop := (s_created_at b <= s_created_at a)%Z.

Lemma insert_created_sorted r l : Sorted created_desc l -> Sorted created_desc (insert_created r l).
Proof.
  induction l as [| y l IH]; intros H; simpl.
  - constructor; constructor.
  - destruct (Z.leb_spec (s_created_at y) (s_created_at r)) as [Hle | Hgt].
    + constructor; [exact H | constructor; exact Hle].
    + inversion H as [| ? ? Hs Hh]; subst. constructor; [exact (IH Hs) |].
      destruct l as [| z l]; simpl.
      * constructor. unfold created_desc. lia.
      * destruct (Z.leb (s_created_at z) (s_created_at r)); constructor;
          [unfold created_desc; lia | inversion Hh; assumption].
Qed.

Lemma sort_created_sorted l : Sorted created_desc (sort_created l).
Proof.
  induction l as [| y l IH]; simpl; [constructor |]. apply insert_created_sorted. exact IH.
Qed.

Lemma map_sorted {A B} (R : A -> A -> Prop) (R' : B -> B -> Prop) (f : A -> B) l :
  (forall a b, R a b -> R' (f a) (f b)) -> Sorted R l -> Sorted R' (map f l).
Proof.
  intros Hf H. induction H as [| a l Hs IH Hh]; simpl; constructor; [exact IH |].
  destruct Hh; simpl; constructor. apply Hf. assumption.
Qed.

(** [GET /api/surveys] without a valid id answers 200 with one view per
    row of the table: every survey appears with its statistics, nothing
    else does, and the views are ordered by creation time, the most
    recently created first. *)
Theorem surveys_list_newest_first fl now uuid req s :
  method req = "GET" -> is_valid_id (pathname req) = false ->
  exists l,
    surveys_handler fl false now uuid req s = (mkSResponse 200 (SList l), slog ListSurveys s) /\
    length l = length (surveys s) /\
    (forall sv, In sv (surveys s) -> In (stats (Db.ratings (db s)) sv) l) /\
    (forall v, In v l -> exists sv, In sv (surveys s) /\ v = stats (Db.ratings (db s)) sv) /\
    Sorted (fun a b => (v_created_at b <= v_created_at a)%Z) l.
Proof.
  intros Hm Hv. exists (map (stats (Db.ratings (db s))) (sort_created (surveys s))).
  split; [| split; [| split; [| split]]].
  - rewrite (handler_no_id fl false now uuid req s ltac:(rewrite Hm; discriminate) Hv), Hm.
    reflexivity.
  - rewrite length_map. apply sort_created_length.
  - intros sv H. apply in_map. apply sort_created_in. exact H.
  - intros v H. apply in_map_iff in H as [sv [<- H]]. exists sv. split; [| reflexivity].
    apply sort_created_in. exact H.
  - apply (map_sorted created_desc); [| apply sort_created_sorted].
    intros a b H. exact H.
Qed.

Lemma surveys_list_newest_first_witness :
  surveys_handler no_faults false sample_now "u9" (sreq "GET" "/api/surveys/xyz" None "") survey_world
  = (mkSResponse 200 (SList [mkView uuid2 "Pepperoni" 200 1 (Some (3 # 1));
                             mkView uuid1 "Margherita" 100 2 (Some (14 # 2))]),
     slog ListSurveys survey_world).
Proof.
  destruct (surveys_list_newest_first no_faults sample_now "u9" (sreq "GET" "/api/surveys/xyz" None "")
              survey_world eq_refl eq_refl) as [l [E _]].
  rewrite E. f_equal. f_equal. f_equal.
  revert E. vm_compute. intros E. injection E as El. symmetry. exact El.
Defined.

End SurveysExtras.
